(** * The agronomic recommendation engine of the farmer advisory app

    A shallow embedding of [generateRecommendations], the click handler of the
    [CropRecommendation] component, in its two coexisting variants:

    - [Simple]: src/components/CropRecommendation.tsx (no soil type);
    - [SoilAware]: the component of the same name carried in
      src/components/ChatBot.tsx, with a soil selector, soil-dependent scores
      and two soil-specific rules.

    The handler validates the form state, and on success a timer callback
    builds two arrays by a fixed sequence of guarded [push]es, sorts the crop
    array by descending suitability and stores both with [setRecommendations].
    The embedding passes the component state explicitly and records the
    toasts that are shown. *)

From Stdlib Require Import List String Ascii ZArith QArith Bool Lia.
From Stdlib Require Import Sorted Permutation.
Import ListNotations.

Local Open Scope string_scope.
Local Open Scope Z_scope.
Local Open Scope list_scope.

(** ** The fragment of JavaScript the handler uses *)

Module JS.

(** A JavaScript number: every finite double is a rational, so comparisons
    of finite values are comparisons in [Q]; [NaN] and the two infinities
    are kept apart because [parseFloat] and [parseInt] can return them. *)
Inductive number : Type :=
| NaN
| NegInfinity
| Infinity
| Finite (q : Q).

(** An integer literal of the source text. *)
Definition lit (z : Z) : number := Finite (inject_Z z).

(** [a < b]. *)
Definition lt (a b : number) : bool :=
  match a, b with
  | NaN, _ | _, NaN => false
  | NegInfinity, NegInfinity => false
  | NegInfinity, _ => true
  | Infinity, _ => false
  | Finite _, NegInfinity => false
  | Finite _, Infinity => true
  | Finite x, Finite y => negb (Qle_bool y x)
  end.

(** [a <= b]. *)
Definition le (a b : number) : bool :=
  match a, b with
  | NaN, _ | _, NaN => false
  | NegInfinity, _ => true
  | Infinity, Infinity => true
  | Infinity, _ => false
  | Finite _, NegInfinity => false
  | Finite _, Infinity => true
  | Finite x, Finite y => Qle_bool x y
  end.

(** [a > b] and [a >= b]. *)
Definition gt (a b : number) : bool := lt b a.
Definition ge (a b : number) : bool := le b a.

(** [a === b] on numbers. *)
Definition strict_equals (a b : number) : bool :=
  match a, b with
  | NegInfinity, NegInfinity => true
  | Infinity, Infinity => true
  | Finite x, Finite y => Qeq_bool x y
  | _, _ => false
  end.

(** [!s] on a string: only the empty string is falsy. *)
Definition not_ (s : string) : bool := (s =? "")%string.

(** [s.includes(sub)]. *)
Definition includes (s sub : string) : bool :=
  match String.index 0 sub s with
  | Some _ => true
  | None => false
  end.

(** [a.push(x)], as the array after the call. *)
Definition push {A : Type} (a : list A) (x : A) : list A := a ++ [x].

(** [a.sort(compareFn)] for a comparator that returns a number, here an
    integer difference.  ECMAScript (2019 on) requires the sort to be
    stable, and for a consistent comparator the result is then unique: the
    elements in non-decreasing comparator order, ties in their original
    order.  [x] goes in front of the first element it does not have to
    follow. *)
Fixpoint insert {A : Type} (compareFn : A -> A -> Z) (x : A) (a : list A)
  : list A :=
  match a with
  | [] => [x]
  | y :: a' =>
      if 0 <? compareFn x y then y :: insert compareFn x a'
      else x :: y :: a'
  end.

Fixpoint sort {A : Type} (compareFn : A -> A -> Z) (a : list A) : list A :=
  match a with
  | [] => []
  | x :: a' => insert compareFn x (sort compareFn a')
  end.

End JS.

(** ** The interfaces shared by both files *)

Record NPKValues : Type := mkNPK {
  nitrogen : JS.number;
  phosphorus : JS.number;
  potassium : JS.number
}.

(** The suitability values are the integer literals of the source (70 to 95),
    on which the comparator's subtraction is exact; they are kept in [Z]. *)
Module CropSuggestion.
Record t : Type := mk {
  name : string;
  suitability : Z;
  reason : string;
  growthPeriod : string;
  expectedYield : string;
  waterRequirement : string
}.
End CropSuggestion.

Module FertilizerSuggestion.
Record t : Type := mk {
  name : string;
  type : string;
  application : string;
  quantity : string;
  timing : string
}.
End FertilizerSuggestion.

(** The value handed to [setRecommendations]. *)
Record Recommendations : Type := mkRecommendations {
  crops : list CropSuggestion.t;
  fertilizers : list FertilizerSuggestion.t
}.

(** What the user is shown through [toast]. *)
Inductive Toast : Type :=
| toast_error (message : string)
| toast_success (message : string).

(** The comparator of both files: [(a, b) => b.suitability - a.suitability]. *)
Definition bySuitability (a b : CropSuggestion.t) : Z :=
  CropSuggestion.suitability b - CropSuggestion.suitability a.

(** ** The soil-aware component (ChatBot.tsx, lines 1116-1330) *)

Module SoilAware.

Import JS.

(** The [useState] cells of the component. *)
Record State : Type := mkState {
  temperature : string;
  soilType : string;
  npkValues : NPKValues;
  loading : bool;
  recommendations : option Recommendations
}.

Definition setLoading (b : bool) (st : State) : State :=
  mkState (temperature st) (soilType st) (npkValues st) b (recommendations st).

Definition setRecommendations (r : Recommendations) (st : State) : State :=
  mkState (temperature st) (soilType st) (npkValues st) (loading st) (Some r).

(** The crop array of the timer callback right before it is sorted: six
    guarded blocks in source order, each pushing at most one suggestion. *)
Definition cropSuggestions (temp : number) (soilType : string)
    (potassium : number) : list CropSuggestion.t :=
  let cropSuggestions : list CropSuggestion.t := [] in
  let cropSuggestions :=
    if ge temp (lit 25) && le temp (lit 35) then
      let '(suitability, reason) :=
        if (soilType =? "clayey")%string || (soilType =? "black")%string then
          (95, ("Optimal temperature and " ++ soilType
               ++ " soil excellent for rice cultivation with high water retention")%string)
        else if (soilType =? "loamy")%string then
          (90, "Optimal temperature and loamy soil good for rice cultivation")
        else (85, "Optimal temperature for rice cultivation") in
      push cropSuggestions
        (CropSuggestion.mk "Rice" suitability reason
           "120-140 days" "4-6 tons/hectare" "High (1200-1500mm)")
    else cropSuggestions in
  let cropSuggestions :=
    if ge temp (lit 20) && le temp (lit 30) then
      let '(suitability, reason) :=
        if (soilType =? "loamy")%string || (soilType =? "black")%string then
          (90, ("Good temperature range and " ++ soilType
               ++ " soil ideal for wheat cultivation")%string)
        else if (soilType =? "clayey")%string then
          (85, "Good temperature and clayey soil suitable for wheat")
        else (80, "Good temperature range for wheat") in
      push cropSuggestions
        (CropSuggestion.mk "Wheat" suitability reason
           "120-150 days" "3-4 tons/hectare" "Medium (450-650mm)")
    else cropSuggestions in
  let cropSuggestions :=
    if ge temp (lit 25) && le temp (lit 40) && gt potassium (lit 40) then
      let '(suitability, reason) :=
        if (soilType =? "black")%string || (soilType =? "red")%string then
          (90, ("High potassium, warm temperature and " ++ soilType
               ++ " soil excellent for cotton cultivation")%string)
        else if (soilType =? "loamy")%string then
          (85, "High potassium, warm temperature and loamy soil good for cotton")
        else (75, "High potassium and warm temperature for cotton") in
      push cropSuggestions
        (CropSuggestion.mk "Cotton" suitability reason
           "160-200 days" "2-3 tons/hectare" "Medium (700-1200mm)")
    else cropSuggestions in
  let cropSuggestions :=
    if ge temp (lit 15) && le temp (lit 25) then
      let '(suitability, reason) :=
        if (soilType =? "loamy")%string || (soilType =? "sandy")%string then
          (85, ("Cool temperature and " ++ soilType
               ++ " soil excellent for potato cultivation with good drainage")%string)
        else if (soilType =? "red")%string then
          (80, "Cool temperature and red soil good for potato cultivation")
        else (70, "Cool temperature suitable for potato") in
      push cropSuggestions
        (CropSuggestion.mk "Potato" suitability reason
           "90-120 days" "20-25 tons/hectare" "Medium (500-700mm)")
    else cropSuggestions in
  let cropSuggestions :=
    if (soilType =? "sandy")%string && ge temp (lit 20) && le temp (lit 35) then
      push cropSuggestions
        (CropSuggestion.mk "Groundnut" 88
           "Sandy soil with good drainage perfect for groundnut cultivation"
           "120-130 days" "2-3 tons/hectare" "Medium (500-700mm)")
    else cropSuggestions in
  let cropSuggestions :=
    if (soilType =? "red")%string && ge temp (lit 20) && le temp (lit 30) then
      push cropSuggestions
        (CropSuggestion.mk "Millets" 85
           "Red soil with good mineral content ideal for drought-resistant millets"
           "75-100 days" "1-2 tons/hectare" "Low (300-500mm)")
    else cropSuggestions in
  cropSuggestions.

(** The fertilizer array of the timer callback: three guarded pushes and
    the unconditional organic one. *)
Definition fertilizerSuggestions (nitrogen phosphorus potassium : number)
  : list FertilizerSuggestion.t :=
  let fertilizerSuggestions : list FertilizerSuggestion.t := [] in
  let fertilizerSuggestions :=
    if lt nitrogen (lit 50) then
      push fertilizerSuggestions
        (FertilizerSuggestion.mk "Urea" "Nitrogen Fertilizer"
           "Soil Application" "100-150 kg/hectare" "Pre-sowing and top-dressing")
    else fertilizerSuggestions in
  let fertilizerSuggestions :=
    if lt phosphorus (lit 40) then
      push fertilizerSuggestions
        (FertilizerSuggestion.mk "DAP (Di-Ammonium Phosphate)"
           "Phosphorus Fertilizer" "Basal Application" "100-125 kg/hectare"
           "At the time of sowing")
    else fertilizerSuggestions in
  let fertilizerSuggestions :=
    if lt potassium (lit 45) then
      push fertilizerSuggestions
        (FertilizerSuggestion.mk "Muriate of Potash" "Potassium Fertilizer"
           "Soil Application" "80-100 kg/hectare" "Pre-sowing")
    else fertilizerSuggestions in
  push fertilizerSuggestions
    (FertilizerSuggestion.mk "Vermicompost" "Organic Fertilizer"
       "Soil Incorporation" "2-3 tons/hectare" "15-20 days before sowing").

(** The inputs the handler lets through: none of its three guards holds. *)
Definition passesValidation (st : State) : bool :=
  negb (not_ (temperature st) || (temperature st =? "0")%string)
  && negb (not_ (soilType st))
  && negb (strict_equals (nitrogen (npkValues st)) (lit 0)
           && strict_equals (phosphorus (npkValues st)) (lit 0)
           && strict_equals (potassium (npkValues st)) (lit 0)).

Section Host.

(** The host's [parseFloat]: a built-in, not code of the repository. *)
Variable parseFloat : string -> number.

(** The body of the [setTimeout] callback, over the values the closure
    captured when the button was pressed. *)
Definition timerCallback (temperature soilType : string)
    (npkValues : NPKValues) (st : State) : State * list Toast :=
  let temp := parseFloat temperature in
  let '(mkNPK nitrogen phosphorus potassium) := npkValues in
  let cropSuggestions := cropSuggestions temp soilType potassium in
  let fertilizerSuggestions :=
    fertilizerSuggestions nitrogen phosphorus potassium in
  let st :=
    setRecommendations
      (mkRecommendations (sort bySuitability cropSuggestions)
         fertilizerSuggestions) st in
  let st := setLoading false st in
  (st, [toast_success "AI recommendations generated successfully!"]).

(** The click handler followed by its timer callback: the 2000 ms delay
    is not modelled, the result is the state once the callback has run
    together with the toasts shown. *)
Definition generateRecommendations (st : State) : State * list Toast :=
  if not_ (temperature st) || (temperature st =? "0")%string then
    (st, [toast_error "Please enter the current temperature"])
  else if not_ (soilType st) then
    (st, [toast_error "Please select the soil type"])
  else if strict_equals (nitrogen (npkValues st)) (lit 0)
          && strict_equals (phosphorus (npkValues st)) (lit 0)
          && strict_equals (potassium (npkValues st)) (lit 0) then
    (st, [toast_error "Please enter NPK values"])
  else
    let st' := setLoading true st in
    timerCallback (temperature st) (soilType st) (npkValues st) st'.

End Host.

End SoilAware.

(** ** The simple component (CropRecommendation.tsx, lines 39-180) *)

Module Simple.

Import JS.

(** The [useState] cells of the component: there is no soil selector. *)
Record State : Type := mkState {
  temperature : string;
  npkValues : NPKValues;
  loading : bool;
  recommendations : option Recommendations
}.

Definition setLoading (b : bool) (st : State) : State :=
  mkState (temperature st) (npkValues st) b (recommendations st).

Definition setRecommendations (r : Recommendations) (st : State) : State :=
  mkState (temperature st) (npkValues st) (loading st) (Some r).

(** The crop array before sorting: four guarded pushes with fixed scores. *)
Definition cropSuggestions (temp potassium : number)
  : list CropSuggestion.t :=
  let cropSuggestions : list CropSuggestion.t := [] in
  let cropSuggestions :=
    if ge temp (lit 25) && le temp (lit 35) then
      push cropSuggestions
        (CropSuggestion.mk "Rice" 95
           "Optimal temperature and high nitrogen content suitable for rice cultivation"
           "120-140 days" "4-6 tons/hectare" "High (1200-1500mm)")
    else cropSuggestions in
  let cropSuggestions :=
    if ge temp (lit 20) && le temp (lit 30) then
      push cropSuggestions
        (CropSuggestion.mk "Wheat" 88
           "Good temperature range with adequate phosphorus levels"
           "120-150 days" "3-4 tons/hectare" "Medium (450-650mm)")
    else cropSuggestions in
  let cropSuggestions :=
    if ge temp (lit 25) && le temp (lit 40) && gt potassium (lit 40) then
      push cropSuggestions
        (CropSuggestion.mk "Cotton" 82
           "High potassium content and warm temperature ideal for cotton"
           "160-200 days" "2-3 tons/hectare" "Medium (700-1200mm)")
    else cropSuggestions in
  let cropSuggestions :=
    if ge temp (lit 15) && le temp (lit 25) then
      push cropSuggestions
        (CropSuggestion.mk "Potato" 78
           "Cool temperature with balanced NPK suitable for tuber development"
           "90-120 days" "20-25 tons/hectare" "Medium (500-700mm)")
    else cropSuggestions in
  cropSuggestions.

(** The fertilizer array, as this file writes it. *)
Definition fertilizerSuggestions (nitrogen phosphorus potassium : number)
  : list FertilizerSuggestion.t :=
  let fertilizerSuggestions : list FertilizerSuggestion.t := [] in
  let fertilizerSuggestions :=
    if lt nitrogen (lit 50) then
      push fertilizerSuggestions
        (FertilizerSuggestion.mk "Urea" "Nitrogen Fertilizer"
           "Soil Application" "100-150 kg/hectare" "Pre-sowing and top-dressing")
    else fertilizerSuggestions in
  let fertilizerSuggestions :=
    if lt phosphorus (lit 40) then
      push fertilizerSuggestions
        (FertilizerSuggestion.mk "DAP (Di-Ammonium Phosphate)"
           "Phosphorus Fertilizer" "Basal Application" "100-125 kg/hectare"
           "At the time of sowing")
    else fertilizerSuggestions in
  let fertilizerSuggestions :=
    if lt potassium (lit 45) then
      push fertilizerSuggestions
        (FertilizerSuggestion.mk "Muriate of Potash" "Potassium Fertilizer"
           "Soil Application" "80-100 kg/hectare" "Pre-sowing")
    else fertilizerSuggestions in
  push fertilizerSuggestions
    (FertilizerSuggestion.mk "Vermicompost" "Organic Fertilizer"
       "Soil Incorporation" "2-3 tons/hectare" "15-20 days before sowing").

(** The inputs the handler lets through: neither of its two guards holds. *)
Definition passesValidation (st : State) : bool :=
  negb (not_ (temperature st) || (temperature st =? "0")%string)
  && negb (strict_equals (nitrogen (npkValues st)) (lit 0)
           && strict_equals (phosphorus (npkValues st)) (lit 0)
           && strict_equals (potassium (npkValues st)) (lit 0)).

Section Host.

Variable parseFloat : string -> number.

Definition timerCallback (temperature : string) (npkValues : NPKValues)
    (st : State) : State * list Toast :=
  let temp := parseFloat temperature in
  let '(mkNPK nitrogen phosphorus potassium) := npkValues in
  let cropSuggestions := cropSuggestions temp potassium in
  let fertilizerSuggestions :=
    fertilizerSuggestions nitrogen phosphorus potassium in
  let st :=
    setRecommendations
      (mkRecommendations (sort bySuitability cropSuggestions)
         fertilizerSuggestions) st in
  let st := setLoading false st in
  (st, [toast_success "AI recommendations generated successfully!"]).

Definition generateRecommendations (st : State) : State * list Toast :=
  if not_ (temperature st) || (temperature st =? "0")%string then
    (st, [toast_error "Please enter the current temperature"])
  else if strict_equals (nitrogen (npkValues st)) (lit 0)
          && strict_equals (phosphorus (npkValues st)) (lit 0)
          && strict_equals (potassium (npkValues st)) (lit 0) then
    (st, [toast_error "Please enter NPK values"])
  else
    let st' := setLoading true st in
    timerCallback (temperature st) (npkValues st) st'.

End Host.

End Simple.

(** ** A reader of plain decimal numerals

    [parseFloat] is a parameter of the model.  Where a statement has to be
    run, it is instantiated with this reader of an optional sign, digits and
    an optional fraction, which gives the exact value of such a numeral and
    [NaN] when the text does not start with one.  It is not the built-in:
    exponents, leading blanks and the text Infinity are not read, and long
    numerals are not rounded to a double.  On the short numerals used below
    ("28", "22", "30", "45") it gives the value the built-in returns. *)

Module Decimal.

Import JS.

Definition digit (c : ascii) : option Z :=
  let n := Z.of_nat (nat_of_ascii c) in
  if (48 <=? n) && (n <=? 57) then Some (n - 48) else None.

(** The leading digits of [s], accumulated on [acc], the number of digits
    read and the rest of the text. *)
Fixpoint digits (s : string) (acc : Z) (count : nat) : Z * nat * string :=
  match s with
  | String c s' =>
      match digit c with
      | Some d => digits s' (10 * acc + d) (S count)
      | None => (acc, count, s)
      end
  | EmptyString => (acc, count, s)
  end.

Definition unsigned (s : string) : number :=
  let '(intPart, n, rest) := digits s 0 0%nat in
  match rest with
  | String "." rest' =>
      let '(all, m, _) := digits rest' intPart 0%nat in
      if ((n + m)%nat =? 0)%nat then NaN
      else Finite (Qred (all # Z.to_pos (10 ^ Z.of_nat m)))
  | _ => if (n =? 0)%nat then NaN else Finite (inject_Z intPart)
  end.

Definition negate (x : number) : number :=
  match x with
  | Finite q => Finite (Qopp q)
  | NaN => NaN
  | Infinity => NegInfinity
  | NegInfinity => Infinity
  end.

Definition parseFloat (s : string) : number :=
  match s with
  | String "-" s' => negate (unsigned s')
  | String "+" s' => unsigned s'
  | _ => unsigned s
  end.

End Decimal.

(** ** The crop rules as a table

    The specification describes the six guarded blocks of the soil-aware
    callback as an ordered table of rules, each with an applicability
    predicate, a base score with a generic reason, a map from some soil
    categories to an overriding score and reason, and fixed metadata.  This
    module writes that table down and evaluates it by one pass in table
    order; [SoilAware.cropSuggestions] is compared with it below. *)

Module RuleTable.

Import JS.

Record CropRule : Type := mkRule {
  cropName : string;
  applicability : number -> string -> number -> bool;
  baseScore : Z;
  genericReason : string;
  soilModifiers : list (string * (Z * string));
  growthPeriod : string;
  expectedYield : string;
  waterRequirement : string
}.

Definition rice : CropRule :=
  mkRule "Rice"
    (fun temp _ _ => ge temp (lit 25) && le temp (lit 35))
    85 "Optimal temperature for rice cultivation"
    [("clayey", (95, "Optimal temperature and clayey soil excellent for rice cultivation with high water retention"));
     ("black", (95, "Optimal temperature and black soil excellent for rice cultivation with high water retention"));
     ("loamy", (90, "Optimal temperature and loamy soil good for rice cultivation"))]
    "120-140 days" "4-6 tons/hectare" "High (1200-1500mm)".

Definition wheat : CropRule :=
  mkRule "Wheat"
    (fun temp _ _ => ge temp (lit 20) && le temp (lit 30))
    80 "Good temperature range for wheat"
    [("loamy", (90, "Good temperature range and loamy soil ideal for wheat cultivation"));
     ("black", (90, "Good temperature range and black soil ideal for wheat cultivation"));
     ("clayey", (85, "Good temperature and clayey soil suitable for wheat"))]
    "120-150 days" "3-4 tons/hectare" "Medium (450-650mm)".

Definition cotton : CropRule :=
  mkRule "Cotton"
    (fun temp _ potassium =>
       ge temp (lit 25) && le temp (lit 40) && gt potassium (lit 40))
    75 "High potassium and warm temperature for cotton"
    [("black", (90, "High potassium, warm temperature and black soil excellent for cotton cultivation"));
     ("red", (90, "High potassium, warm temperature and red soil excellent for cotton cultivation"));
     ("loamy", (85, "High potassium, warm temperature and loamy soil good for cotton"))]
    "160-200 days" "2-3 tons/hectare" "Medium (700-1200mm)".

Definition potato : CropRule :=
  mkRule "Potato"
    (fun temp _ _ => ge temp (lit 15) && le temp (lit 25))
    70 "Cool temperature suitable for potato"
    [("loamy", (85, "Cool temperature and loamy soil excellent for potato cultivation with good drainage"));
     ("sandy", (85, "Cool temperature and sandy soil excellent for potato cultivation with good drainage"));
     ("red", (80, "Cool temperature and red soil good for potato cultivation"))]
    "90-120 days" "20-25 tons/hectare" "Medium (500-700mm)".

Definition groundnut : CropRule :=
  mkRule "Groundnut"
    (fun temp soilType _ =>
       (soilType =? "sandy")%string && ge temp (lit 20) && le temp (lit 35))
    88 "Sandy soil with good drainage perfect for groundnut cultivation"
    []
    "120-130 days" "2-3 tons/hectare" "Medium (500-700mm)".

Definition millets : CropRule :=
  mkRule "Millets"
    (fun temp soilType _ =>
       (soilType =? "red")%string && ge temp (lit 20) && le temp (lit 30))
    85 "Red soil with good mineral content ideal for drought-resistant millets"
    []
    "75-100 days" "1-2 tons/hectare" "Low (300-500mm)".

Definition cropRules : list CropRule :=
  [rice; wheat; cotton; potato; groundnut; millets].

(** The position of a crop name in the table (6 for a foreign name). *)
Fixpoint position (rules : list CropRule) (cropName' : string) : nat :=
  match rules with
  | [] => 0
  | rule :: rules' =>
      if (cropName rule =? cropName')%string then 0
      else S (position rules' cropName')
  end.

Fixpoint lookup (soilType : string) (m : list (string * (Z * string)))
  : option (Z * string) :=
  match m with
  | [] => None
  | (soil, entry) :: m' =>
      if (soilType =? soil)%string then Some entry else lookup soilType m'
  end.

(** The suggestion a rule emits for a soil category. *)
Definition resolve (rule : CropRule) (soilType : string) : CropSuggestion.t :=
  let entry :=
    match lookup soilType (soilModifiers rule) with
    | Some entry => entry
    | None => (baseScore rule, genericReason rule)
    end in
  CropSuggestion.mk (cropName rule) (fst entry) (snd entry)
    (growthPeriod rule) (expectedYield rule) (waterRequirement rule).

Definition fire (temp : number) (soilType : string) (potassium : number)
    (rule : CropRule) : list CropSuggestion.t :=
  if applicability rule temp soilType potassium
  then [resolve rule soilType] else [].

Definition evaluate (temp : number) (soilType : string) (potassium : number)
  : list CropSuggestion.t :=
  flat_map (fire temp soilType potassium) cropRules.

End RuleTable.

(** ** Named values of the statements below *)

Module Entries.

(** The four fertilizer entries. *)
Definition urea : FertilizerSuggestion.t :=
  FertilizerSuggestion.mk "Urea" "Nitrogen Fertilizer" "Soil Application"
    "100-150 kg/hectare" "Pre-sowing and top-dressing".

Definition dap : FertilizerSuggestion.t :=
  FertilizerSuggestion.mk "DAP (Di-Ammonium Phosphate)"
    "Phosphorus Fertilizer" "Basal Application" "100-125 kg/hectare"
    "At the time of sowing".

Definition muriateOfPotash : FertilizerSuggestion.t :=
  FertilizerSuggestion.mk "Muriate of Potash" "Potassium Fertilizer"
    "Soil Application" "80-100 kg/hectare" "Pre-sowing".

Definition vermicompost : FertilizerSuggestion.t :=
  FertilizerSuggestion.mk "Vermicompost" "Organic Fertilizer"
    "Soil Incorporation" "2-3 tons/hectare" "15-20 days before sowing".

(** A crop suggestion with the fixed metadata of its crop. *)
Definition rice (suitability : Z) (reason : string) : CropSuggestion.t :=
  CropSuggestion.mk "Rice" suitability reason
    "120-140 days" "4-6 tons/hectare" "High (1200-1500mm)".

Definition wheat (suitability : Z) (reason : string) : CropSuggestion.t :=
  CropSuggestion.mk "Wheat" suitability reason
    "120-150 days" "3-4 tons/hectare" "Medium (450-650mm)".

Definition cotton (suitability : Z) (reason : string) : CropSuggestion.t :=
  CropSuggestion.mk "Cotton" suitability reason
    "160-200 days" "2-3 tons/hectare" "Medium (700-1200mm)".

Definition potato (suitability : Z) (reason : string) : CropSuggestion.t :=
  CropSuggestion.mk "Potato" suitability reason
    "90-120 days" "20-25 tons/hectare" "Medium (500-700mm)".

Definition groundnut : CropSuggestion.t :=
  CropSuggestion.mk "Groundnut" 88
    "Sandy soil with good drainage perfect for groundnut cultivation"
    "120-130 days" "2-3 tons/hectare" "Medium (500-700mm)".

End Entries.

(** The order a ranked crop list has to respect: a higher score first, and at
    equal scores the rule that comes first in the table. *)
Definition ranked (a b : CropSuggestion.t) : Prop :=
  CropSuggestion.suitability a > CropSuggestion.suitability b
  \/ (CropSuggestion.suitability a = CropSuggestion.suitability b
      /\ (RuleTable.position RuleTable.cropRules (CropSuggestion.name a)
          < RuleTable.position RuleTable.cropRules (CropSuggestion.name b))%nat).

(** ** Concrete runs *)

Module Scenario.

Import JS.

(** Temperature 28, black soil, NPK 45/35/50: the conditions the component
    loads by default, with black soil selected. *)
Definition warmBlack : SoilAware.State :=
  SoilAware.mkState "28" "black" (mkNPK (lit 45) (lit 35) (lit 50)) false None.

(** Temperature 22, sandy soil. *)
Definition mildSandy : SoilAware.State :=
  SoilAware.mkState "22" "sandy" (mkNPK (lit 45) (lit 35) (lit 50)) false None.

(** Temperature 45, loamy soil: hotter than every rule allows. *)
Definition hotLoamy : SoilAware.State :=
  SoilAware.mkState "45" "loamy" (mkNPK (lit 45) (lit 35) (lit 50)) false None.

(** Temperature 30, red soil: Rice falls back to its base score. *)
Definition warmRed : SoilAware.State :=
  SoilAware.mkState "30" "red" (mkNPK (lit 45) (lit 35) (lit 50)) false None.

(** NPK 30/25/20: every nutrient below its threshold. *)
Definition depleted : SoilAware.State :=
  SoilAware.mkState "28" "loamy" (mkNPK (lit 30) (lit 25) (lit 20)) false None.

(** The same inputs in the simple component. *)
Definition depletedSimple : Simple.State :=
  Simple.mkState "28" (mkNPK (lit 30) (lit 25) (lit 20)) false None.

(** The crop list the soil-aware handler stores for a state, read with the
    decimal reader ([[]] when it stores nothing). *)
Definition cropsOf (st : SoilAware.State) : list CropSuggestion.t :=
  match SoilAware.recommendations
          (fst (SoilAware.generateRecommendations Decimal.parseFloat st)) with
  | Some r => crops r
  | None => []
  end.

End Scenario.

(** * The rest of the application

    The components around the two crop handlers: the forms that feed them,
    the feedback form, the chat assistant and pest detection (all carried in
    ChatBot.tsx), the sign-in screen and the screen router that mounts them.
    Built-ins of the host ([parseInt], [trim], [toLowerCase], the clock, the
    random index) are parameters, as [parseFloat] is above. *)

(** ** More of the JavaScript fragment *)

From Stdlib Require DecimalString.

Module JSValue.

Import JS.

(** The numbers that count as false: [NaN] and zero. *)
Definition falsy (x : number) : bool :=
  match x with
  | NaN => true
  | Finite q => Qeq_bool q 0
  | _ => false
  end.

(** [x || y] on numbers. *)
Definition or_ (x y : number) : number := if falsy x then y else x.

(** [n.toString()] for an integer-valued number below 10^21: its decimal
    digits, with a minus sign when negative. *)
Definition integerToString (n : Z) : string :=
  DecimalString.NilZero.string_of_int (Z.to_int n).

End JSValue.

(** ** The form around the soil-aware handler (ChatBot.tsx, lines 1117-1141
    and 1379-1434) *)

Module CropForm.

Import JS JSValue.

(** The cells as [useState] initialises them. *)
Definition initial : SoilAware.State :=
  SoilAware.mkState "" "" (mkNPK (lit 0) (lit 0) (lit 0)) false None.

Definition setTemperature (value : string) (st : SoilAware.State)
  : SoilAware.State :=
  SoilAware.mkState value (SoilAware.soilType st) (SoilAware.npkValues st)
    (SoilAware.loading st) (SoilAware.recommendations st).

Definition setSoilType (value : string) (st : SoilAware.State)
  : SoilAware.State :=
  SoilAware.mkState (SoilAware.temperature st) value (SoilAware.npkValues st)
    (SoilAware.loading st) (SoilAware.recommendations st).

(** [setNpkValues(prev => ...)]: a functional update. *)
Definition setNpkValues (update : NPKValues -> NPKValues)
    (st : SoilAware.State) : SoilAware.State :=
  SoilAware.mkState (SoilAware.temperature st) (SoilAware.soilType st)
    (update (SoilAware.npkValues st))
    (SoilAware.loading st) (SoilAware.recommendations st).

(** The mount effect: the mock conditions are written into the form. *)
Definition fetchCurrentConditions (st : SoilAware.State)
  : SoilAware.State * list Toast :=
  let mockData_temperature := 28 in
  let mockData_npk := mkNPK (lit 45) (lit 35) (lit 50) in
  let st := setTemperature (integerToString mockData_temperature) st in
  let st := setNpkValues (fun _ => mockData_npk) st in
  (st, [toast_success "Current conditions loaded from your location"]).

Section Host.

(** The host's [parseInt]. *)
Variable parseInt : string -> number.

(** The [onChange] handlers of the three nutrient inputs. *)
Definition onNitrogenChange (value : string) (st : SoilAware.State)
  : SoilAware.State :=
  setNpkValues
    (fun prev =>
       mkNPK (or_ (parseInt value) (lit 0)) (phosphorus prev) (potassium prev))
    st.

Definition onPhosphorusChange (value : string) (st : SoilAware.State)
  : SoilAware.State :=
  setNpkValues
    (fun prev =>
       mkNPK (nitrogen prev) (or_ (parseInt value) (lit 0)) (potassium prev))
    st.

Definition onPotassiumChange (value : string) (st : SoilAware.State)
  : SoilAware.State :=
  setNpkValues
    (fun prev =>
       mkNPK (nitrogen prev) (phosphorus prev) (or_ (parseInt value) (lit 0)))
    st.

End Host.

End CropForm.

(** ** The form around the simple handler (CropRecommendation.tsx, lines
    40-63) *)

Module SimpleForm.

Import JS JSValue.

Definition initial : Simple.State :=
  Simple.mkState "" (mkNPK (lit 0) (lit 0) (lit 0)) false None.

Definition setTemperature (value : string) (st : Simple.State)
  : Simple.State :=
  Simple.mkState value (Simple.npkValues st) (Simple.loading st)
    (Simple.recommendations st).

Definition setNpkValues (update : NPKValues -> NPKValues) (st : Simple.State)
  : Simple.State :=
  Simple.mkState (Simple.temperature st) (update (Simple.npkValues st))
    (Simple.loading st) (Simple.recommendations st).

Definition fetchCurrentConditions (st : Simple.State)
  : Simple.State * list Toast :=
  let mockData_temperature := 28 in
  let mockData_npk := mkNPK (lit 45) (lit 35) (lit 50) in
  let st := setTemperature (integerToString mockData_temperature) st in
  let st := setNpkValues (fun _ => mockData_npk) st in
  (st, [toast_success "Current conditions loaded from your location"]).

End SimpleForm.

(** ** The feedback form (ChatBot.tsx, lines 790-848 and 895-911) *)

Module Feedback.

Import JS.

Record State : Type := mkState {
  rating : number;
  overallExperience : string;
  mostUsefulFeature : string;
  suggestions : string;
  improvements : string;
  recommendation : string;
  submitting : bool
}.

Definition initial : State := mkState (lit 0) "" "" "" "" "" false.

Definition setRating (r : number) (st : State) : State :=
  mkState r (overallExperience st) (mostUsefulFeature st) (suggestions st)
    (improvements st) (recommendation st) (submitting st).

Definition setSubmitting (b : bool) (st : State) : State :=
  mkState (rating st) (overallExperience st) (mostUsefulFeature st)
    (suggestions st) (improvements st) (recommendation st) b.

Definition handleStarClick (starRating : number) (st : State) : State :=
  setRating starRating st.

(** The five star buttons, [[1, 2, 3, 4, 5].map(...)]. *)
Definition stars : list number := [lit 1; lit 2; lit 3; lit 4; lit 5].

(** The colour classes of one star. *)
Definition starClass (star rating : number) : string :=
  if le star rating then "text-yellow-400 fill-yellow-400"
  else "text-gray-300".

(** A [switch] compares with [===]. *)
Definition getRatingText (rating : number) : string :=
  if strict_equals rating (lit 1) then "Poor"
  else if strict_equals rating (lit 2) then "Fair"
  else if strict_equals rating (lit 3) then "Good"
  else if strict_equals rating (lit 4) then "Very Good"
  else if strict_equals rating (lit 5) then "Excellent"
  else "Rate your experience".

Section Host.

(** The host's [String.prototype.trim]. *)
Variable trim : string -> string.

(** The timer callback of a submission: thanks, then the form is reset. *)
Definition timerCallback (st : State) : State * list Toast :=
  let st := setSubmitting false st in
  let st := setRating (lit 0) st in
  let st :=
    mkState (rating st) "" "" "" "" "" (submitting st) in
  (st,
   [toast_success
      "Thank you for your valuable feedback! We'll use it to improve AgroSmart."]).

(** The submit handler followed by its timer callback. *)
Definition handleSubmit (st : State) : State * list Toast :=
  if strict_equals (rating st) (lit 0) then
    (st, [toast_error "Please provide a rating"])
  else if not_ (trim (overallExperience st)) then
    (st, [toast_error "Please describe your overall experience"])
  else
    let st' := setSubmitting true st in
    timerCallback st'.

End Host.

End Feedback.

(** ** The chat assistant (ChatBot.tsx, lines 14-176) *)

Module ChatBot.

Import JS JSValue.

Inductive Sender : Type := user | bot.

(** A message.  [text] is [None] where the source would store [undefined];
    [timestamp] is the clock reading of [new Date()] in milliseconds. *)
Record Message : Type := mkMessage {
  id : string;
  text : option string;
  sender : Sender;
  timestamp : Z
}.

Record State : Type := mkState {
  messages : list Message;
  inputText : string;
  isTyping : bool;
  isListening : bool
}.

Definition initial : State := mkState [] "" false false.

Definition setMessages (update : list Message -> list Message) (st : State)
  : State :=
  mkState (update (messages st)) (inputText st) (isTyping st) (isListening st).

Definition setInputText (value : string) (st : State) : State :=
  mkState (messages st) value (isTyping st) (isListening st).

Definition setIsTyping (b : bool) (st : State) : State :=
  mkState (messages st) (inputText st) b (isListening st).

Module predefinedResponses.

Definition greeting : list string :=
  ["Hello! I'm your AgroSmart AI assistant. How can I help you with your farming needs today?";
   "Welcome to AgroSmart! I'm here to answer your agriculture questions.";
   "Hi there! I'm ready to help with any farming questions you have."].

Definition weather : list string :=
  ["Weather is crucial for farming decisions. You can check detailed weather forecasts in the Weather section of the app. Current conditions show good farming weather!";
   "For accurate weather information, use our Weather Details feature. It provides temperature, humidity, and rainfall predictions."].

Definition crops : list string :=
  ["For crop recommendations, use our AI-powered Crop Recommendation feature. It considers soil conditions, temperature, and NPK values to suggest the best crops for your area.";
   "Different crops thrive in different conditions. What type of crop are you interested in growing?"].

Definition pests : list string :=
  ["Our Pest Detection feature can help identify diseases and pests from plant photos. You can also use organic treatments like neem oil spray for common pests.";
   "Common pest prevention includes proper spacing, avoiding overwatering, and regular plant inspection. What specific pest issue are you facing?"].

Definition market : list string :=
  ["Check our Market Prices section for current rates of various crops. Market prices fluctuate based on demand, season, and quality.";
   "For the best market prices, consider the quality of your produce and timing of sale. Premium quality crops always fetch better prices."].

Definition fertilizer : list string :=
  ["Fertilizer recommendations depend on your soil's NPK values. Use our Crop Recommendation feature for personalized fertilizer suggestions.";
   "Organic fertilizers like vermicompost are excellent for long-term soil health. What's your current soil condition?"].

Definition irrigation : list string :=
  ["Proper irrigation depends on crop type, soil, and weather. Drip irrigation is most efficient for water conservation.";
   "Water your crops early morning or evening to reduce evaporation. How large is your farming area?"].

Definition default : list string :=
  ["That's an interesting question! Could you be more specific about your farming concern?";
   "I'd be happy to help! Can you provide more details about what you're looking for?";
   "Let me help you with that. Could you rephrase your question or provide more context?"].

End predefinedResponses.

(** The four quick-question buttons under the input. *)
Definition quickQuestions : list string :=
  ["What crops are best for my area?";
   "How to prevent pest attacks?";
   "Current market prices?";
   "Weather forecast?"].

Section Host.

(** The host's [String.prototype.toLowerCase] and [String.prototype.trim]. *)
Variable toLowerCase : string -> string.
Variable trim : string -> string.

(** [Math.floor(Math.random() * n)] for the call at hand: the index drawn
    for an array of length [n]. *)
Variable randomIndex : nat -> nat.

(** [responses[Math.floor(Math.random() * responses.length)]]; an index
    past the end reads [undefined]. *)
Definition pick (responses : list string) : option string :=
  nth_error responses (randomIndex (List.length responses)).

Definition getAIResponse (userInput : string) : option string :=
  let input := toLowerCase userInput in
  if includes input "hello" || includes input "hi" || includes input "hey"
  then pick predefinedResponses.greeting
  else if includes input "weather" || includes input "rain"
          || includes input "temperature"
  then pick predefinedResponses.weather
  else if includes input "crop" || includes input "plant"
          || includes input "grow"
  then pick predefinedResponses.crops
  else if includes input "pest" || includes input "disease"
          || includes input "insect" || includes input "bug"
  then pick predefinedResponses.pests
  else if includes input "market" || includes input "price"
          || includes input "sell"
  then pick predefinedResponses.market
  else if includes input "fertilizer" || includes input "nutrient"
          || includes input "npk"
  then pick predefinedResponses.fertilizer
  else if includes input "water" || includes input "irrigation"
          || includes input "drought"
  then pick predefinedResponses.irrigation
  else pick predefinedResponses.default.

(** The synchronous part of [sendMessage]; [now] is what [Date.now()]
    returns and [date] what [new Date()] reads. *)
Definition sendMessage (now date : Z) (text : string) (st : State) : State :=
  if not_ (trim text) then st
  else
    let userMessage :=
      mkMessage (integerToString now) (Some (trim text)) user date in
    let st := setMessages (fun prev => prev ++ [userMessage]) st in
    let st := setInputText "" st in
    setIsTyping true st.

(** The timer callback [sendMessage] schedules, with its own clock
    readings; [text] is the argument the closure captured. *)
Definition replyCallback (now date : Z) (text : string) (st : State)
  : State :=
  let botResponse :=
    mkMessage (integerToString (now + 1)) (getAIResponse text) bot date in
  let st := setMessages (fun prev => prev ++ [botResponse]) st in
  setIsTyping false st.

End Host.

(** The mount effect: the conversation starts with the welcome message. *)
Definition welcome (date : Z) (st : State) : State :=
  let welcomeMessage :=
    mkMessage "welcome"
      (Some "Welcome to AgroSmart AI Assistant! I'm here to help you with farming questions, weather information, crop advice, and more. How can I assist you today?")
      bot date in
  setMessages (fun _ => [welcomeMessage]) st.

(** What can happen to a mounted chat: the input is edited, a text is sent
    (Enter, the send button or a quick question), or a pending reply timer
    fires with its own random draw. *)
Inductive Event : Type :=
| Typed (value : string)
| Sent (now date : Z) (text : string)
| Replied (now date : Z) (text : string) (randomIndex : nat -> nat).

Definition step (toLowerCase trim : string -> string) (st : State)
    (e : Event) : State :=
  match e with
  | Typed value => setInputText value st
  | Sent now date text => sendMessage trim now date text st
  | Replied now date text randomIndex =>
      replyCallback toLowerCase randomIndex now date text st
  end.

Definition run (toLowerCase trim : string -> string) (st : State)
    (events : list Event) : State :=
  fold_left (step toLowerCase trim) events st.

End ChatBot.

(** ** Pest detection (ChatBot.tsx, lines 354-524) *)

Module PestDetection.

Import JS JSValue.

Record Pesticide : Type := mkPesticide {
  name : string;
  type : string;
  dosage : string;
  applicationMethod : string;
  precautions : list string
}.

Record OrganicTreatment : Type := mkOrganic {
  method : string;
  ingredients : string;
  preparation : string
}.

Record Treatment : Type := mkTreatment {
  pesticides : list Pesticide;
  organicTreatment : list OrganicTreatment
}.

(** [confidence] holds the integer literals of the source. *)
Record DetectionResult : Type := mkResult {
  disease : string;
  confidence : Z;
  severity : string;
  description : string;
  symptoms : list string;
  treatment : Treatment;
  prevention : list string
}.

(** [selectedImage] is a data URL or [null]; [result] is [None] for [null]
    and for [undefined]. *)
Record State : Type := mkState {
  selectedImage : option string;
  analyzing : bool;
  result : option DetectionResult
}.

Definition initial : State := mkState None false None.

(** What the user is shown, and the [TypeError] of reading a property of
    [undefined], which nothing catches. *)
Inductive Notice : Type :=
| toast_error (message : string)
| toast_info (message : string)
| toast_success (message : string)
| uncaught_TypeError.

Inductive Icon : Type := CheckCircle | AlertTriangle | Bug.

Definition mockResults : list DetectionResult :=
  [mkResult "Leaf Spot Disease" 92 "Medium"
     "A fungal disease that causes brown spots on leaves, potentially reducing crop yield."
     ["Brown or black circular spots on leaves";
      "Yellow halos around spots";
      "Premature leaf drop";
      "Reduced photosynthesis"]
     (mkTreatment
        [mkPesticide "Copper Sulfate" "Fungicide" "2-3 grams per liter"
           "Foliar spray"
           ["Wear protective gear"; "Apply during cool hours";
            "Avoid windy conditions"];
         mkPesticide "Mancozeb" "Protective Fungicide" "2.5 grams per liter"
           "Foliar spray"
           ["Do not apply before rain"; "Maintain 7-day interval";
            "Wear mask and gloves"]]
        [mkOrganic "Neem Oil Spray" "Neem oil, water, mild soap"
           "Mix 10ml neem oil + 1ml soap in 1L water. Spray in evening.";
         mkOrganic "Baking Soda Solution" "Baking soda, water"
           "Mix 5g baking soda in 1L water. Spray weekly."])
     ["Ensure proper plant spacing for air circulation";
      "Avoid overhead watering";
      "Remove infected plant debris";
      "Use disease-resistant varieties";
      "Apply preventive fungicide sprays"];
   mkResult "Aphid Infestation" 88 "Low"
     "Small soft-bodied insects that feed on plant sap, causing stunted growth."
     ["Small green or black insects on leaves";
      "Curled or distorted leaves";
      "Sticky honeydew on plant surfaces";
      "Presence of ants"]
     (mkTreatment
        [mkPesticide "Imidacloprid" "Systemic Insecticide" "0.5ml per liter"
           "Soil drench or foliar spray"
           ["Avoid application during flowering"; "Use protective equipment";
            "Follow PHI period"]]
        [mkOrganic "Soap Water Spray" "Mild dish soap, water"
           "Mix 5ml soap in 1L water. Spray directly on aphids.";
         mkOrganic "Garlic-Chili Spray" "Garlic, green chilies, water"
           "Blend 5 garlic cloves + 2 chilies in 1L water. Strain and spray."])
     ["Encourage beneficial insects like ladybugs";
      "Use reflective mulches";
      "Regular monitoring of plants";
      "Avoid over-fertilizing with nitrogen"]].

(** The file input's [onChange]: [file] is the data URL the reader loads
    for the chosen file, [None] when no file was chosen. *)
Definition handleImageUpload (file : option string) (st : State) : State :=
  match file with
  | Some dataURL => mkState (Some dataURL) (analyzing st) None
  | None => st
  end.

(** The Remove button: [setSelectedImage(null)]. *)
Definition removeImage (st : State) : State :=
  mkState None (analyzing st) (result st).

(** [!selectedImage]: [null] and the empty string are falsy. *)
Definition noImage (st : State) : bool :=
  match selectedImage st with
  | None => true
  | Some url => not_ url
  end.

Section Host.

(** [Math.floor(Math.random() * n)] for the call at hand. *)
Variable randomIndex : nat -> nat.

(** The timer callback of an analysis. *)
Definition timerCallback (st : State) : State * list Notice :=
  let randomResult :=
    nth_error mockResults (randomIndex (List.length mockResults)) in
  let st := mkState (selectedImage st) (analyzing st) randomResult in
  let st := mkState (selectedImage st) false (result st) in
  match randomResult with
  | Some r =>
      (st,
       [toast_success
          ("Disease detected with " ++ integerToString (confidence r)
           ++ "% confidence")%string])
  | None => (st, [uncaught_TypeError])
  end.

(** The Analyze button followed by its timer callback. *)
Definition analyzeImage (st : State) : State * list Notice :=
  if noImage st then (st, [toast_error "Please select an image first"])
  else
    let st := mkState (selectedImage st) true (result st) in
    let notices := [toast_info "Analyzing image with AI..."] in
    let '(st, later) := timerCallback st in
    (st, notices ++ later).

End Host.

Definition getSeverityColor (severity : string) : string :=
  if (severity =? "Low")%string then "text-green-600"
  else if (severity =? "Medium")%string then "text-yellow-600"
  else if (severity =? "High")%string then "text-red-600"
  else "text-gray-600".

Definition getSeverityIcon (severity : string) : Icon :=
  if (severity =? "Low")%string then CheckCircle
  else if (severity =? "Medium")%string then AlertTriangle
  else if (severity =? "High")%string then AlertTriangle
  else Bug.

End PestDetection.

(** ** Sign-in and registration (AuthScreen, unnamed part 000, lines 17-115
    and 246-328) *)

(** Strings whose length matters are kept as their UTF-16 code units. *)
Module Text.

Definition t : Type := list N.

(** An ASCII literal of the source. *)
Definition ofString (s : string) : t :=
  map N_of_ascii (list_ascii_of_string s).

(** [!s]. *)
Definition not_ (s : t) : bool :=
  match s with
  | [] => true
  | _ :: _ => false
  end.

Fixpoint eqb (a b : t) : bool :=
  match a, b with
  | [], [] => true
  | x :: a', y :: b' => (x =? y)%N && eqb a' b'
  | _, _ => false
  end.

(** The class [\d]: the ten ASCII digits. *)
Definition isDigit (c : N) : bool := ((48 <=? c) && (c <=? 57))%N.

(** [s.replace(/\D/g, '')]. *)
Definition removeNonDigits (s : t) : t := filter isDigit s.

(** [s.slice(0, n)]. *)
Definition slice0 (n : nat) (s : t) : t := firstn n s.

End Text.

Inductive Language : Type := English | Hindi | Punjabi.

Record User : Type := mkUser {
  phoneNumber : Text.t;
  location : string;
  language : Language
}.

Module AuthScreen.

Definition languageName (l : Language) : string :=
  match l with
  | English => "English"
  | Hindi => "Hindi"
  | Punjabi => "Punjabi"
  end.

Record State : Type := mkState {
  language : Language;
  isLogin : bool;
  locationPermissionGranted : option bool;
  loginPhone : Text.t;
  loginPassword : Text.t;
  regPhone : Text.t;
  regPassword : Text.t;
  confirmPassword : Text.t;
  securityQuestion : Text.t
}.

Definition initial : State :=
  mkState English true None [] [] [] [] [] [].

Definition setLocationPermissionGranted (b : bool) (st : State) : State :=
  mkState (language st) (isLogin st) (Some b) (loginPhone st)
    (loginPassword st) (regPhone st) (regPassword st) (confirmPassword st)
    (securityQuestion st).

(** The [onChange] handlers of the two phone inputs. *)
Definition onLoginPhoneChange (value : Text.t) (st : State) : State :=
  mkState (language st) (isLogin st) (locationPermissionGranted st)
    (Text.slice0 10 (Text.removeNonDigits value))
    (loginPassword st) (regPhone st) (regPassword st) (confirmPassword st)
    (securityQuestion st).

Definition onRegPhoneChange (value : Text.t) (st : State) : State :=
  mkState (language st) (isLogin st) (locationPermissionGranted st)
    (loginPhone st) (loginPassword st)
    (Text.slice0 10 (Text.removeNonDigits value))
    (regPassword st) (confirmPassword st) (securityQuestion st).

(** The other inputs store what is typed. *)
Definition setLoginPassword (value : Text.t) (st : State) : State :=
  mkState (language st) (isLogin st) (locationPermissionGranted st)
    (loginPhone st) value (regPhone st) (regPassword st) (confirmPassword st)
    (securityQuestion st).

Definition setRegPassword (value : Text.t) (st : State) : State :=
  mkState (language st) (isLogin st) (locationPermissionGranted st)
    (loginPhone st) (loginPassword st) (regPhone st) value
    (confirmPassword st) (securityQuestion st).

Definition setConfirmPassword (value : Text.t) (st : State) : State :=
  mkState (language st) (isLogin st) (locationPermissionGranted st)
    (loginPhone st) (loginPassword st) (regPhone st) (regPassword st) value
    (securityQuestion st).

Definition setSecurityQuestion (value : Text.t) (st : State) : State :=
  mkState (language st) (isLogin st) (locationPermissionGranted st)
    (loginPhone st) (loginPassword st) (regPhone st) (regPassword st)
    (confirmPassword st) value.

Definition setLanguage (value : Language) (st : State) : State :=
  mkState value (isLogin st) (locationPermissionGranted st)
    (loginPhone st) (loginPassword st) (regPhone st) (regPassword st)
    (confirmPassword st) (securityQuestion st).

(** The tab switch: [setIsLogin(value === "login")]. *)
Definition onTabChange (value : string) (st : State) : State :=
  mkState (language st) (value =? "login")%string
    (locationPermissionGranted st)
    (loginPhone st) (loginPassword st) (regPhone st) (regPassword st)
    (confirmPassword st) (securityQuestion st).

(** How the browser answers [requestLocationPermission]. *)
Inductive Geolocation : Type :=
| unsupported
| granted
| permissionDenied
| unavailable.

Definition requestLocationPermission (answer : Geolocation) (st : State)
  : State * list Toast :=
  match answer with
  | unsupported =>
      (setLocationPermissionGranted false st,
       [toast_error "Geolocation is not supported by this browser"])
  | granted =>
      (setLocationPermissionGranted true st,
       [toast_success
          "Location access granted! We'll use your GPS location for accurate weather data."])
  | permissionDenied =>
      (setLocationPermissionGranted false st,
       [toast_error
          "Location permission denied. The app will work with limited functionality."])
  | unavailable =>
      (setLocationPermissionGranted false st,
       [toast_error
          "Unable to get your location. The app will work with limited functionality."])
  end.

(** [locationPermissionGranted ? "GPS Auto-detected" : "Location not
    available"]: [null] and [false] are falsy. *)
Definition locationText (st : State) : string :=
  match locationPermissionGranted st with
  | Some true => "GPS Auto-detected"
  | _ => "Location not available"
  end.

(** The toasts shown and the argument of [onLogin], if it is called. *)
Definition handleLogin (st : State) : list Toast * option User :=
  if Text.not_ (loginPhone st)
     || negb (List.length (loginPhone st) =? 10)%nat then
    ([toast_error "Please enter a valid 10-digit phone number"], None)
  else if Text.not_ (loginPassword st) then
    ([toast_error "Please enter your password"], None)
  else
    let userData := mkUser (loginPhone st) (locationText st) (language st) in
    ([toast_success
        ("Welcome back! Logging in with " ++ languageName (language st))%string],
     Some userData).

Definition handleRegister (st : State) : list Toast * option User :=
  if Text.not_ (regPhone st)
     || negb (List.length (regPhone st) =? 10)%nat then
    ([toast_error "Please enter a valid 10-digit phone number"], None)
  else if Text.not_ (regPassword st)
          || (List.length (regPassword st) <? 6)%nat then
    ([toast_error "Password must be at least 6 characters"], None)
  else if negb (Text.eqb (regPassword st) (confirmPassword st)) then
    ([toast_error "Passwords do not match"], None)
  else if Text.not_ (securityQuestion st) then
    ([toast_error "Please answer the security question"], None)
  else
    let userData := mkUser (regPhone st) (locationText st) (language st) in
    ([toast_success
        ("Account created successfully! Welcome to AgroSmart in "
         ++ languageName (language st))%string],
     Some userData).

End AuthScreen.

(** ** The home page's way out (HomePage.tsx, lines 94-128, 151, 171, 222
    and 263) *)

Inductive Screen : Type :=
| auth
| home
| weather_details
| market_details
| crop_recommendation
| pest_detection
| chat
| feedback.

Module HomePage.

(** The [screen] fields of [menuItems], in order. *)
Definition menuItems : list Screen :=
  [crop_recommendation; pest_detection; chat; feedback].

(** Every screen some button of the page hands to [onNavigate]: the weather
    card, the market card and the menu items. *)
Definition navigationTargets : list Screen :=
  [weather_details; market_details] ++ menuItems.

(** [handleVoiceToggle]: the argument of [onToggleVoice] and the toast. *)
Definition handleVoiceToggle (isVoiceEnabled : bool) : bool * list Toast :=
  (negb isVoiceEnabled,
   [toast_success
      (if isVoiceEnabled then "Voice assistance disabled"
       else "Voice assistance enabled")]).

End HomePage.

(** ** The screen router (App, unnamed part 002, lines 312-322 and
    462-520) *)

Module App.

Record UserLocation : Type := mkUserLocation {
  lat : JS.number;
  lon : JS.number;
  city : string
}.

Record State : Type := mkState {
  currentScreen : Screen;
  user : option User;
  isVoiceEnabled : bool;
  userLocation : option UserLocation
}.

Definition initial : State := mkState auth None false None.

Definition setCurrentScreen (s : Screen) (st : State) : State :=
  mkState s (user st) (isVoiceEnabled st) (userLocation st).

Definition setUser (u : User) (st : State) : State :=
  mkState (currentScreen st) (Some u) (isVoiceEnabled st) (userLocation st).

Definition setIsVoiceEnabled (b : bool) (st : State) : State :=
  mkState (currentScreen st) (user st) b (userLocation st).

Definition setUserLocation (l : UserLocation) (st : State) : State :=
  mkState (currentScreen st) (user st) (isVoiceEnabled st) (Some l).

(** The [onLogin] prop handed to the sign-in screen. *)
Definition onLogin (userData : User) (st : State) : State :=
  setCurrentScreen home (setUser userData st).

(** The [onBack] prop handed to every feature screen. *)
Definition onBack (st : State) : State := setCurrentScreen home st.

(** What the router mounts.  A feature screen receives [user!], which is
    the cell's content unchecked; the home page is mounted only when the
    cell is filled, and nothing is mounted otherwise. *)
Inductive View : Type :=
| AuthView
| HomeView (u : User)
| FeatureView (s : Screen) (u : option User)
| Blank.

Definition view (st : State) : View :=
  match currentScreen st with
  | auth => AuthView
  | home =>
      match user st with
      | Some u => HomeView u
      | None => Blank
      end
  | s => FeatureView s (user st)
  end.

Definition Screen_eqb (a b : Screen) : bool :=
  match a, b with
  | auth, auth | home, home | weather_details, weather_details
  | market_details, market_details
  | crop_recommendation, crop_recommendation
  | pest_detection, pest_detection | chat, chat | feedback, feedback => true
  | _, _ => false
  end.

(** The router together with the sign-in form it mounts first. *)
Record System : Type := mkSystem {
  app : State;
  authScreen : AuthScreen.State
}.

Definition start : System := mkSystem initial AuthScreen.initial.

(** What the user and the browser can do.  A button press or an edit
    counts only while its component is mounted. *)
Inductive Event : Type :=
| LoginPhoneTyped (value : Text.t)
| LoginPasswordTyped (value : Text.t)
| RegPhoneTyped (value : Text.t)
| RegPasswordTyped (value : Text.t)
| ConfirmPasswordTyped (value : Text.t)
| SecurityAnswerTyped (value : Text.t)
| LanguageSelected (value : Language)
| TabSelected (value : string)
| LoginPressed
| RegisterPressed
| GeolocationAnswered (answer : AuthScreen.Geolocation)
| LocationDetected (l : UserLocation)
| NavigationPressed (target : Screen)
| VoiceToggled
| BackPressed.

Definition editAuth (f : AuthScreen.State -> AuthScreen.State)
    (sys : System) : System * list Toast :=
  match view (app sys) with
  | AuthView => (mkSystem (app sys) (f (authScreen sys)), [])
  | _ => (sys, [])
  end.

Definition submitAuth
    (handler : AuthScreen.State -> list Toast * option User)
    (sys : System) : System * list Toast :=
  match view (app sys) with
  | AuthView =>
      let '(toasts, userData) := handler (authScreen sys) in
      match userData with
      | Some u => (mkSystem (onLogin u (app sys)) (authScreen sys), toasts)
      | None => (sys, toasts)
      end
  | _ => (sys, [])
  end.

Definition step (sys : System) (e : Event) : System * list Toast :=
  match e with
  | LoginPhoneTyped v => editAuth (AuthScreen.onLoginPhoneChange v) sys
  | LoginPasswordTyped v => editAuth (AuthScreen.setLoginPassword v) sys
  | RegPhoneTyped v => editAuth (AuthScreen.onRegPhoneChange v) sys
  | RegPasswordTyped v => editAuth (AuthScreen.setRegPassword v) sys
  | ConfirmPasswordTyped v => editAuth (AuthScreen.setConfirmPassword v) sys
  | SecurityAnswerTyped v => editAuth (AuthScreen.setSecurityQuestion v) sys
  | LanguageSelected l => editAuth (AuthScreen.setLanguage l) sys
  | TabSelected v => editAuth (AuthScreen.onTabChange v) sys
  | LoginPressed => submitAuth AuthScreen.handleLogin sys
  | RegisterPressed => submitAuth AuthScreen.handleRegister sys
  | GeolocationAnswered answer =>
      let '(form, toasts) :=
        AuthScreen.requestLocationPermission answer (authScreen sys) in
      (mkSystem (app sys) form, toasts)
  | LocationDetected l =>
      (mkSystem (setUserLocation l (app sys)) (authScreen sys), [])
  | NavigationPressed target =>
      match view (app sys) with
      | HomeView _ =>
          if existsb (Screen_eqb target) HomePage.navigationTargets
          then (mkSystem (setCurrentScreen target (app sys)) (authScreen sys),
                [])
          else (sys, [])
      | _ => (sys, [])
      end
  | VoiceToggled =>
      match view (app sys) with
      | HomeView _ =>
          let '(enabled, toasts) :=
            HomePage.handleVoiceToggle (isVoiceEnabled (app sys)) in
          (mkSystem (setIsVoiceEnabled enabled (app sys)) (authScreen sys),
           toasts)
      | _ => (sys, [])
      end
  | BackPressed =>
      match view (app sys) with
      | FeatureView _ _ => (mkSystem (onBack (app sys)) (authScreen sys), [])
      | _ => (sys, [])
      end
  end.

(** The state after a sequence of events, and every toast shown on the
    way. *)
Fixpoint run (sys : System) (events : list Event) : System * list Toast :=
  match events with
  | [] => (sys, [])
  | e :: events' =>
      let '(sys', toasts) := step sys e in
      let '(sys'', later) := run sys' events' in
      (sys'', toasts ++ later)
  end.

End App.

(** ** More concrete runs *)

Module Runs.

Import JS.

(** Temperature 25 on sandy soil with potassium 50: five guards hold. *)
Definition fiveCrops : SoilAware.State :=
  SoilAware.mkState "25" "sandy" (mkNPK (lit 45) (lit 35) (lit 50)) false None.

(** The same temperature and soil with other nitrogen and phosphorus. *)
Definition fiveCropsRich : SoilAware.State :=
  SoilAware.mkState "25" "sandy" (mkNPK (lit 80) (lit 0) (lit 50)) true None.

(** The simple component at temperature 25 with potassium 50. *)
Definition fourCropsSimple : Simple.State :=
  Simple.mkState "25" (mkNPK (lit 45) (lit 35) (lit 50)) false None.

End Runs.

(** ** Readers and case folding for the concrete runs

    Like [Decimal.parseFloat], these stand in for built-ins where a
    statement is run: [parseInt] on an optional sign followed by digits,
    [toLowerCase] and [trim] on ASCII text (letters A to Z, and the blanks
    space, tab, line feed and carriage return).  They are not the
    built-ins. *)

Module Ascii7.

Import JS.

Definition parseInt (s : string) : number :=
  let read (s : string) : number :=
    let '(n, count, _) := Decimal.digits s 0 0%nat in
    if (count =? 0)%nat then NaN else Finite (inject_Z n) in
  match s with
  | String "-" s' => Decimal.negate (read s')
  | String "+" s' => read s'
  | _ => read s
  end.

Definition lowerChar (c : ascii) : ascii :=
  let n := nat_of_ascii c in
  if ((65 <=? n) && (n <=? 90))%nat then ascii_of_nat (n + 32) else c.

Fixpoint toLowerCase (s : string) : string :=
  match s with
  | EmptyString => EmptyString
  | String c s' => String (lowerChar c) (toLowerCase s')
  end.

Definition isBlank (c : ascii) : bool :=
  let n := nat_of_ascii c in
  ((n =? 32) || (n =? 9) || (n =? 10) || (n =? 13))%nat.

Fixpoint trimStart (s : string) : string :=
  match s with
  | String c s' => if isBlank c then trimStart s' else s
  | EmptyString => EmptyString
  end.

(** [s] without its trailing blanks. *)
Fixpoint trimEnd (s : string) : string :=
  match s with
  | EmptyString => EmptyString
  | String c s' =>
      match trimEnd s' with
      | EmptyString => if isBlank c then EmptyString else String c EmptyString
      | rest => String c rest
      end
  end.

Definition trim (s : string) : string := trimEnd (trimStart s).

End Ascii7.

(** ** Named values of the chat statements *)

Module ChatEntries.



(** A draw that [Math.floor(Math.random() * n)] can produce: an index
    below [n]. *)
Definition inRange (randomIndex : nat -> nat) : Prop :=
  forall n : nat, (0 < n)%nat -> (randomIndex n < n)%nat.

(** The labels of the five stars and the two colour classes. *)
Definition ratingTexts : list string :=
  ["Poor"; "Fair"; "Good"; "Very Good"; "Excellent"].

Definition filled : string := "text-yellow-400 fill-yellow-400".
Definition hollow : string := "text-gray-300".

End ChatEntries.

(** ** What the router keeps true *)

Module RouterFacts.

(** A phone number as the sign-in form lets it through: ten ASCII digits. *)
Definition tenDigits (phone : Text.t) : Prop :=
  List.length phone = 10%nat /\ Forall (fun c => Text.isDigit c = true) phone.

(** A user as the sign-in form builds it. *)
Definition signedIn (u : User) : Prop :=
  tenDigits (phoneNumber u)
  /\ (location u = "GPS Auto-detected"
      \/ location u = "Location not available").

(** The two phone cells hold digits only, ten at most. *)
Definition digitsOnly (form : AuthScreen.State) : Prop :=
  Forall (fun c => Text.isDigit c = true) (AuthScreen.loginPhone form)
  /\ Forall (fun c => Text.isDigit c = true) (AuthScreen.regPhone form).

(** Either the sign-in screen is shown and nobody is signed in, or another
    screen is shown and a well-formed user is. *)
Definition consistent (sys : App.System) : Prop :=
  digitsOnly (App.authScreen sys)
  /\ ((App.currentScreen (App.app sys) = auth
       /\ App.user (App.app sys) = None)
      \/ (App.currentScreen (App.app sys) <> auth
          /\ exists u, App.user (App.app sys) = Some u /\ signedIn u)).

(** A sample sign-in: ten digits and a password are typed, the browser
    grants the location, Login is pressed, the chat is opened and left. *)
Definition sampleSession : list App.Event :=
  [App.GeolocationAnswered AuthScreen.granted;
   App.LoginPhoneTyped (Text.ofString "98765-43210 ext. 7");
   App.LoginPasswordTyped (Text.ofString "x");
   App.LoginPressed;
   App.NavigationPressed chat;
   App.BackPressed;
   App.NavigationPressed auth;
   App.LoginPressed].

End RouterFacts.

(** ** Named values of the edge-case statements *)

Module Edges.

(** The five values of the soil selector. *)
Definition soilOptions : list string :=
  ["loamy"; "clayey"; "black"; "sandy"; "red"].

(** The four general crops with their base scores and generic reasons. *)
Definition baseSuggestions : list CropSuggestion.t :=
  [Entries.rice 85 "Optimal temperature for rice cultivation";
   Entries.wheat 80 "Good temperature range for wheat";
   Entries.cotton 75 "High potassium and warm temperature for cotton";
   Entries.potato 70 "Cool temperature suitable for potato"].

(** A soil text no option of the selector produces; 37 degrees with
    potassium 50 and with potassium 10; a temperature text that is not a
    number. *)
Definition peatSoil : SoilAware.State :=
  SoilAware.mkState "25" "peat" (mkNPK (JS.lit 45) (JS.lit 35) (JS.lit 50))
    false None.

Definition hotRich : SoilAware.State :=
  SoilAware.mkState "37" "loamy" (mkNPK (JS.lit 45) (JS.lit 35) (JS.lit 50))
    false None.

Definition unreadable : SoilAware.State :=
  SoilAware.mkState "warm" "loamy" (mkNPK (JS.lit 45) (JS.lit 35) (JS.lit 50))
    false None.

End Edges.
(** ** Facts about the JavaScript fragment *)

Section NumberFacts.

Import JS.

Lemma le_lit (a b : Z) : le (lit a) (lit b) = (a <=? b)%Z.
Proof.
  unfold le, lit. destruct (Z.leb_spec a b) as [H|H].
  - apply Qle_bool_iff. now rewrite <- Zle_Qle.
  - destruct (Qle_bool (inject_Z a) (inject_Z b)) eqn:E; [|reflexivity].
    apply Qle_bool_iff in E. rewrite <- Zle_Qle in E. lia.
Qed.

(** A number that [===] an integer literal compares like that literal. *)
Lemma le_equals_l (x : number) (z k : Z) :
  strict_equals x (lit z) = true -> le x (lit k) = (z <=? k)%Z.
Proof.
  destruct x as [| | |q]; simpl; try discriminate. intros E.
  apply Qeq_bool_iff in E. rewrite <- le_lit. unfold le, lit.
  destruct (Qle_bool q (inject_Z k)) eqn:E1,
           (Qle_bool (inject_Z z) (inject_Z k)) eqn:E2; try reflexivity.
  - apply Qle_bool_iff in E1. rewrite E in E1.
    apply Qle_bool_iff in E1. congruence.
  - apply Qle_bool_iff in E2. rewrite <- E in E2.
    apply Qle_bool_iff in E2. congruence.
Qed.

Lemma ge_equals_l (x : number) (z k : Z) :
  strict_equals x (lit z) = true -> ge x (lit k) = (k <=? z)%Z.
Proof.
  destruct x as [| | |q]; simpl; try discriminate. intros E.
  apply Qeq_bool_iff in E. rewrite <- le_lit. unfold ge, le, lit.
  destruct (Qle_bool (inject_Z k) q) eqn:E1,
           (Qle_bool (inject_Z k) (inject_Z z)) eqn:E2; try reflexivity.
  - apply Qle_bool_iff in E1. rewrite E in E1.
    apply Qle_bool_iff in E1. congruence.
  - apply Qle_bool_iff in E2. rewrite <- E in E2.
    apply Qle_bool_iff in E2. congruence.
Qed.

(** Above 40 no temperature guard of the callback holds. *)
Lemma gt_le_false (x : number) (a b : Z) :
  (b <= a)%Z -> gt x (lit a) = true -> le x (lit b) = false.
Proof.
  intros Hab. destruct x as [| | |q]; simpl; try discriminate; try reflexivity.
  intros H. apply negb_true_iff in H.
  destruct (Qle_bool q (inject_Z b)) eqn:E; [|reflexivity].
  apply Qle_bool_iff in E.
  assert (Hq : (q <= inject_Z a)%Q).
  { eapply Qle_trans; [exact E|]. now rewrite <- Zle_Qle. }
  apply Qle_bool_iff in Hq. congruence.
Qed.

(** [x >= a] excludes [x < a]. *)
Lemma ge_lt_false (x a : number) : ge x a = true -> lt x a = false.
Proof.
  destruct x as [| | |q], a as [| | |r]; simpl; try discriminate;
    try reflexivity.
  intros H. now rewrite H.
Qed.

End NumberFacts.

Section SortFacts.

Import JS.

Context {A : Type} (key : A -> Z).

(** [a.sort((a, b) => key(b) - key(a))] rearranges, it neither drops nor
    invents an element. *)
Lemma insert_Permutation (x : A) (l : list A) :
  Permutation (x :: l) (insert (fun a b => key b - key a) x l).
Proof.
  induction l as [|y l IH]; simpl; [reflexivity|].
  destruct (0 <? key y - key x); [|reflexivity].
  rewrite perm_swap. now apply perm_skip.
Qed.

Lemma sort_Permutation (l : list A) :
  Permutation l (sort (fun a b => key b - key a) l).
Proof.
  induction l as [|x l IH]; simpl; [constructor|].
  rewrite <- insert_Permutation. now apply perm_skip.
Qed.

Lemma sort_In (x : A) (l : list A) :
  In x (sort (fun a b => key b - key a) l) <-> In x l.
Proof.
  split; apply Permutation_in;
    [symmetry|]; apply sort_Permutation.
Qed.

(** Stability.  [before] is any order the input array is already in: the
    sorted array is in descending key order and, among equal keys, still
    in [before] order. *)
Variable before : A -> A -> Prop.

Lemma insert_ordered (x : A) (l : list A) :
  Forall (before x) l ->
  StronglySorted
    (fun a b => key a > key b \/ (key a = key b /\ before a b)) l ->
  StronglySorted
    (fun a b => key a > key b \/ (key a = key b /\ before a b))
    (insert (fun a b => key b - key a) x l).
Proof.
  intros Hx Hl. induction Hl as [|y l Hl IH Hy]; simpl.
  - repeat constructor.
  - inversion Hx as [|? ? Hxy Hxl]; subst.
    destruct (Z.ltb_spec 0 (key y - key x)) as [Hlt|Hge].
    + constructor; [now apply IH|].
      eapply Permutation_Forall; [apply insert_Permutation|].
      constructor; [left; lia|exact Hy].
    + constructor; [now constructor|].
      constructor.
      * destruct (Z.eq_dec (key x) (key y)); [right; now split|left; lia].
      * rewrite Forall_forall in Hy, Hxl |- *. intros z Hz.
        destruct (Hy z Hz) as [Hgt|[Heq _]].
        -- left; lia.
        -- destruct (Z.eq_dec (key x) (key z));
             [right; split; [assumption|now apply Hxl]|left; lia].
Qed.

Lemma sort_ordered (l : list A) :
  StronglySorted before l ->
  StronglySorted
    (fun a b => key a > key b \/ (key a = key b /\ before a b))
    (sort (fun a b => key b - key a) l).
Proof.
  induction 1 as [|x l Hl IH Hx]; simpl; [constructor|].
  apply insert_ordered; [|exact IH].
  eapply Permutation_Forall; [apply sort_Permutation|exact Hx].
Qed.

End SortFacts.

Section ListFacts.

Context {A : Type}.

(** In a strongly sorted list any earlier element is related to any later
    one. *)
Lemma StronglySorted_nth_error (R : A -> A -> Prop) (l : list A) :
  StronglySorted R l ->
  forall (i j : nat) (a b : A),
    (i < j)%nat -> nth_error l i = Some a -> nth_error l j = Some b ->
    R a b.
Proof.
  induction 1 as [|x l Hl IH Hx]; intros i j a b Hij Ha Hb.
  - destruct i; discriminate.
  - destruct j as [|j]; [lia|]. simpl in Hb.
    destruct i as [|i]; simpl in Ha.
    + injection Ha as <-. rewrite Forall_forall in Hx.
      apply Hx. eapply nth_error_In; eassumption.
    + apply (IH i j); [lia|assumption..].
Qed.

(** A guarded push appends one element or nothing. *)
Lemma push_if (c : bool) (l : list A) (x : A) :
  (if c then JS.push l x else l) = l ++ (if c then [x] else []).
Proof. destruct c; [reflexivity|now rewrite app_nil_r]. Qed.

End ListFacts.

(** ** The soil-aware callback against the rule table *)

Section TableFacts.

Import JS.

(** Once the soil tests are decided, both sides are the same chain of
    guarded one-element lists. *)
Local Ltac soil_case :=
  cbn [String.eqb Ascii.eqb Bool.eqb orb andb fst snd];
  rewrite !push_if, <- !app_assoc, ?app_nil_r;
  reflexivity.

(** The six guarded blocks compute what one pass over the table computes,
    for every temperature, every text in the soil cell and every potassium
    value. *)
Lemma cropSuggestions_evaluate (temp : number) (soilType : string)
    (potassium : number) :
  SoilAware.cropSuggestions temp soilType potassium
  = RuleTable.evaluate temp soilType potassium.
Proof.
  unfold SoilAware.cropSuggestions, RuleTable.evaluate, RuleTable.cropRules,
    RuleTable.fire, RuleTable.resolve.
  cbn [flat_map RuleTable.applicability RuleTable.soilModifiers
       RuleTable.rice RuleTable.wheat RuleTable.cotton RuleTable.potato
       RuleTable.groundnut RuleTable.millets RuleTable.lookup
       RuleTable.cropName RuleTable.baseScore RuleTable.genericReason
       RuleTable.growthPeriod RuleTable.expectedYield
       RuleTable.waterRequirement].
  generalize (ge temp (lit 25)), (le temp (lit 35)), (ge temp (lit 20)),
    (le temp (lit 30)), (le temp (lit 40)), (gt potassium (lit 40)),
    (ge temp (lit 15)), (le temp (lit 25)).
  intros b1 b2 b3 b4 b5 b6 b7 b8.
  destruct (String.eqb_spec soilType "clayey") as [->|_];
    [soil_case|].
  destruct (String.eqb_spec soilType "black") as [->|_];
    [soil_case|].
  destruct (String.eqb_spec soilType "loamy") as [->|_];
    [soil_case|].
  destruct (String.eqb_spec soilType "red") as [->|_];
    [soil_case|].
  destruct (String.eqb_spec soilType "sandy") as [->|_];
    soil_case.
Qed.

End TableFacts.

Section EvaluateFacts.

Import JS.

Variables (temp : number) (soilType : string) (potassium : number).

(** A rule of the table that applies puts its suggestion in the list. *)
Lemma evaluate_In (rule : RuleTable.CropRule) :
  In rule RuleTable.cropRules ->
  RuleTable.applicability rule temp soilType potassium = true ->
  In (RuleTable.resolve rule soilType)
     (RuleTable.evaluate temp soilType potassium).
Proof.
  intros Hin Happ. unfold RuleTable.evaluate. apply in_flat_map.
  exists rule. split; [exact Hin|].
  unfold RuleTable.fire. rewrite Happ. now left.
Qed.

(** The suggestions come out in table order, each crop at most once. *)
Lemma evaluate_table_order :
  StronglySorted
    (fun a b =>
       (RuleTable.position RuleTable.cropRules (CropSuggestion.name a)
        < RuleTable.position RuleTable.cropRules (CropSuggestion.name b))%nat)
    (RuleTable.evaluate temp soilType potassium).
Proof.
  unfold RuleTable.evaluate, RuleTable.cropRules, RuleTable.fire.
  cbn [flat_map].
  destruct (RuleTable.applicability RuleTable.rice temp soilType potassium),
    (RuleTable.applicability RuleTable.wheat temp soilType potassium),
    (RuleTable.applicability RuleTable.cotton temp soilType potassium),
    (RuleTable.applicability RuleTable.potato temp soilType potassium),
    (RuleTable.applicability RuleTable.groundnut temp soilType potassium),
    (RuleTable.applicability RuleTable.millets temp soilType potassium);
    cbn [app]; repeat constructor.
Qed.

End EvaluateFacts.

(** ** What the handler does on valid and on invalid input *)

Section HandlerFacts.

Import JS.

Variable parseFloat : string -> number.

Lemma generateRecommendations_valid (st : SoilAware.State) :
  SoilAware.passesValidation st = true ->
  SoilAware.generateRecommendations parseFloat st
  = (SoilAware.mkState (SoilAware.temperature st) (SoilAware.soilType st)
       (SoilAware.npkValues st) false
       (Some
          (mkRecommendations
             (sort bySuitability
                (SoilAware.cropSuggestions
                   (parseFloat (SoilAware.temperature st))
                   (SoilAware.soilType st)
                   (potassium (SoilAware.npkValues st))))
             (SoilAware.fertilizerSuggestions
                (nitrogen (SoilAware.npkValues st))
                (phosphorus (SoilAware.npkValues st))
                (potassium (SoilAware.npkValues st))))),
     [toast_success "AI recommendations generated successfully!"]).
Proof.
  unfold SoilAware.passesValidation, SoilAware.generateRecommendations.
  intros H. apply andb_true_iff in H as [H H3].
  apply andb_true_iff in H as [H1 H2].
  apply negb_true_iff in H1, H2, H3. rewrite H1, H2, H3.
  unfold SoilAware.timerCallback. destruct st as [t s [n p k] l r].
  reflexivity.
Qed.

Lemma generateRecommendations_invalid (st : SoilAware.State) :
  SoilAware.passesValidation st = false ->
  exists message,
    SoilAware.generateRecommendations parseFloat st
    = (st, [toast_error message]).
Proof.
  unfold SoilAware.passesValidation, SoilAware.generateRecommendations.
  intros H.
  destruct (not_ (SoilAware.temperature st)
            || (SoilAware.temperature st =? "0")%string);
    [eexists; reflexivity|].
  destruct (not_ (SoilAware.soilType st)); [eexists; reflexivity|].
  destruct (strict_equals (nitrogen (SoilAware.npkValues st)) (lit 0)
            && strict_equals (phosphorus (SoilAware.npkValues st)) (lit 0)
            && strict_equals (potassium (SoilAware.npkValues st)) (lit 0));
    [eexists; reflexivity|discriminate].
Qed.

(** The ranked crop list of a valid evaluation is the stable sort of the
    table's output, hence in [ranked] order. *)
Lemma sorted_crops_ranked (temp : number) (soilType : string)
    (k : number) :
  StronglySorted ranked
    (sort bySuitability (SoilAware.cropSuggestions temp soilType k)).
Proof.
  rewrite cropSuggestions_evaluate.
  apply (sort_ordered CropSuggestion.suitability
           (fun a b =>
              (RuleTable.position RuleTable.cropRules (CropSuggestion.name a)
               < RuleTable.position RuleTable.cropRules
                   (CropSuggestion.name b))%nat)).
  apply evaluate_table_order.
Qed.

End HandlerFacts.

Section SimpleFacts.

Import JS.

Variable parseFloat : string -> number.

Lemma simple_generateRecommendations_valid (st : Simple.State) :
  Simple.passesValidation st = true ->
  Simple.generateRecommendations parseFloat st
  = (Simple.mkState (Simple.temperature st) (Simple.npkValues st) false
       (Some
          (mkRecommendations
             (sort bySuitability
                (Simple.cropSuggestions (parseFloat (Simple.temperature st))
                   (potassium (Simple.npkValues st))))
             (Simple.fertilizerSuggestions
                (nitrogen (Simple.npkValues st))
                (phosphorus (Simple.npkValues st))
                (potassium (Simple.npkValues st))))),
     [toast_success "AI recommendations generated successfully!"]).
Proof.
  unfold Simple.passesValidation, Simple.generateRecommendations.
  intros H. apply andb_true_iff in H as [H1 H2].
  apply negb_true_iff in H1, H2. rewrite H1, H2.
  unfold Simple.timerCallback. destruct st as [t [n p k] l r].
  reflexivity.
Qed.

(** The fertilizer array is the concatenation of the guarded entries. *)
Lemma fertilizerSuggestions_app (n p k : number) :
  SoilAware.fertilizerSuggestions n p k
  = (if lt n (lit 50) then [Entries.urea] else [])
    ++ (if lt p (lit 40) then [Entries.dap] else [])
    ++ (if lt k (lit 45) then [Entries.muriateOfPotash] else [])
    ++ [Entries.vermicompost].
Proof.
  unfold SoilAware.fertilizerSuggestions.
  destruct (lt n (lit 50)), (lt p (lit 40)), (lt k (lit 45)); reflexivity.
Qed.

End SimpleFacts.

(** ** The properties of the specification *)

Import JS.

(** C2. For every input that passes validation, the stored fertilizer
    sequence is exactly: Urea if nitrogen < 50, then DAP if phosphorus < 40,
    then Muriate of Potash if potassium < 45, then Vermicompost.  So it is
    never empty, Vermicompost is its last element, it is the only element
    when nitrogen >= 50, phosphorus >= 40 and potassium >= 45, and for NPK
    30/25/20 the sequence is the four entries in that order. *)
Theorem fertilizer_sequence (parseFloat : string -> number)
    (st : SoilAware.State) :
  SoilAware.passesValidation st = true ->
  exists r,
    SoilAware.recommendations
      (fst (SoilAware.generateRecommendations parseFloat st)) = Some r
    /\ fertilizers r
       = (if lt (nitrogen (SoilAware.npkValues st)) (lit 50)
          then [Entries.urea] else [])
         ++ (if lt (phosphorus (SoilAware.npkValues st)) (lit 40)
             then [Entries.dap] else [])
         ++ (if lt (potassium (SoilAware.npkValues st)) (lit 45)
             then [Entries.muriateOfPotash] else [])
         ++ [Entries.vermicompost]
    /\ fertilizers r <> []
    /\ (exists front, fertilizers r = front ++ [Entries.vermicompost])
    /\ (ge (nitrogen (SoilAware.npkValues st)) (lit 50) = true ->
        ge (phosphorus (SoilAware.npkValues st)) (lit 40) = true ->
        ge (potassium (SoilAware.npkValues st)) (lit 45) = true ->
        fertilizers r = [Entries.vermicompost])
    /\ (SoilAware.npkValues st = mkNPK (lit 30) (lit 25) (lit 20) ->
        fertilizers r
        = [Entries.urea; Entries.dap; Entries.muriateOfPotash;
           Entries.vermicompost]).
Proof.
  intros Hvalid. rewrite (generateRecommendations_valid parseFloat st Hvalid).
  eexists. split; [reflexivity|]. cbn [fst fertilizers].
  rewrite fertilizerSuggestions_app.
  destruct (SoilAware.npkValues st) as [n p k]; cbn [nitrogen phosphorus potassium].
  repeat split.
  - destruct (lt n (lit 50)), (lt p (lit 40)), (lt k (lit 45)); discriminate.
  - eexists. rewrite !app_assoc. reflexivity.
  - intros Hn Hp Hk.
    now rewrite (ge_lt_false _ _ Hn), (ge_lt_false _ _ Hp), (ge_lt_false _ _ Hk).
  - intros E. injection E as -> -> ->. reflexivity.
Qed.

Lemma fertilizer_sequence_witness :
  SoilAware.passesValidation Scenario.depleted = true
  /\ exists r,
       SoilAware.recommendations
         (fst (SoilAware.generateRecommendations Decimal.parseFloat
                 Scenario.depleted)) = Some r
       /\ fertilizers r
          = [Entries.urea; Entries.dap; Entries.muriateOfPotash;
             Entries.vermicompost].
Proof.
  split; [reflexivity|].
  destruct (fertilizer_sequence Decimal.parseFloat Scenario.depleted eq_refl)
    as [r [Hr [_ [_ [_ [_ H]]]]]].
  exists r. split; [exact Hr|]. apply H. reflexivity.
Defined.

(** C3. Validation checks temperature, then soil type, then NPK, and stops
    at the first failure with exactly one error toast and the state
    untouched (nothing is evaluated or stored).  A missing temperature is
    reported whatever the soil cell and the NPK values are, in particular
    when all three NPK values are zero as well; and the handler reports an
    error exactly when one of the three checks fails. *)
Theorem validation_order (parseFloat : string -> number)
    (st : SoilAware.State) :
  (SoilAware.temperature st = "" \/ SoilAware.temperature st = "0" ->
   SoilAware.generateRecommendations parseFloat st
   = (st, [toast_error "Please enter the current temperature"]))
  /\ (SoilAware.temperature st <> "" -> SoilAware.temperature st <> "0" ->
      SoilAware.soilType st = "" ->
      SoilAware.generateRecommendations parseFloat st
      = (st, [toast_error "Please select the soil type"]))
  /\ (SoilAware.temperature st <> "" -> SoilAware.temperature st <> "0" ->
      SoilAware.soilType st <> "" ->
      strict_equals (nitrogen (SoilAware.npkValues st)) (lit 0) = true ->
      strict_equals (phosphorus (SoilAware.npkValues st)) (lit 0) = true ->
      strict_equals (potassium (SoilAware.npkValues st)) (lit 0) = true ->
      SoilAware.generateRecommendations parseFloat st
      = (st, [toast_error "Please enter NPK values"]))
  /\ (SoilAware.passesValidation st = false <->
      exists message,
        SoilAware.generateRecommendations parseFloat st
        = (st, [toast_error message]))
  /\ SoilAware.generateRecommendations parseFloat
       (SoilAware.mkState "" (SoilAware.soilType st)
          (mkNPK (lit 0) (lit 0) (lit 0)) (SoilAware.loading st)
          (SoilAware.recommendations st))
     = (SoilAware.mkState "" (SoilAware.soilType st)
          (mkNPK (lit 0) (lit 0) (lit 0)) (SoilAware.loading st)
          (SoilAware.recommendations st),
        [toast_error "Please enter the current temperature"]).
Proof.
  unfold SoilAware.generateRecommendations, not_.
  split; [|split; [|split; [|split]]].
  - intros [E|E]; rewrite E; reflexivity.
  - intros H1 H2 H3.
    apply String.eqb_neq in H1, H2. rewrite H1, H2, H3. reflexivity.
  - intros H1 H2 H3 Hn Hp Hk.
    apply String.eqb_neq in H1, H2, H3. rewrite H1, H2, H3, Hn, Hp, Hk.
    reflexivity.
  - split.
    + apply generateRecommendations_invalid.
    + intros [message E].
      destruct (SoilAware.passesValidation st) eqn:Hvalid; [|reflexivity].
      pose proof (generateRecommendations_valid parseFloat st Hvalid) as E'.
      unfold SoilAware.generateRecommendations, not_ in E'.
      rewrite E in E'. discriminate.
  - reflexivity.
Qed.

(** C4. For every input that passes validation, the stored crop sequence is
    sorted by score, non-increasing: each suggestion's score is at least the
    score of the one right after it. *)
Theorem crops_sorted_by_score (parseFloat : string -> number)
    (st : SoilAware.State) :
  SoilAware.passesValidation st = true ->
  exists r,
    SoilAware.recommendations
      (fst (SoilAware.generateRecommendations parseFloat st)) = Some r
    /\ forall (i : nat) (a b : CropSuggestion.t),
         nth_error (crops r) i = Some a ->
         nth_error (crops r) (S i) = Some b ->
         CropSuggestion.suitability a >= CropSuggestion.suitability b.
Proof.
  intros Hvalid. rewrite (generateRecommendations_valid parseFloat st Hvalid).
  eexists. split; [reflexivity|]. cbn [fst crops]. intros i a b Ha Hb.
  assert (H : ranked a b).
  { eapply StronglySorted_nth_error;
      [apply sorted_crops_ranked| |exact Ha|exact Hb]. lia. }
  destruct H as [H|[H _]]; lia.
Qed.

Lemma crops_sorted_by_score_witness :
  SoilAware.passesValidation Scenario.warmBlack = true
  /\ exists r,
       SoilAware.recommendations
         (fst (SoilAware.generateRecommendations Decimal.parseFloat
                 Scenario.warmBlack)) = Some r
       /\ forall (i : nat) (a b : CropSuggestion.t),
            nth_error (crops r) i = Some a ->
            nth_error (crops r) (S i) = Some b ->
            CropSuggestion.suitability a >= CropSuggestion.suitability b.
Proof.
  split; [reflexivity|].
  exact (crops_sorted_by_score Decimal.parseFloat Scenario.warmBlack eq_refl).
Defined.

(** Every stored suggestion was emitted by a rule of the table. *)
Lemma evaluate_from_table (temp : number) (soilType : string)
    (k : number) (c : CropSuggestion.t) :
  In c (RuleTable.evaluate temp soilType k) ->
  exists rule,
    In rule RuleTable.cropRules
    /\ RuleTable.applicability rule temp soilType k = true
    /\ c = RuleTable.resolve rule soilType.
Proof.
  unfold RuleTable.evaluate. intros H. apply in_flat_map in H as [rule [Hin H]].
  exists rule. unfold RuleTable.fire in H.
  destruct (RuleTable.applicability rule temp soilType k);
    [|contradiction].
  destruct H as [<-|[]]. now repeat split.
Qed.

(** C5. For every input that passes validation, two stored suggestions with
    equal scores appear in the order of their rules in the table Rice,
    Wheat, Cotton, Potato, Groundnut, Millets: the one listed earlier comes
    from the earlier rule.  Every stored suggestion carries a crop name of
    that table. *)
Theorem ties_in_table_order (parseFloat : string -> number)
    (st : SoilAware.State) :
  SoilAware.passesValidation st = true ->
  map RuleTable.cropName RuleTable.cropRules
  = ["Rice"; "Wheat"; "Cotton"; "Potato"; "Groundnut"; "Millets"]
  /\ map (RuleTable.position RuleTable.cropRules)
       ["Rice"; "Wheat"; "Cotton"; "Potato"; "Groundnut"; "Millets"]
     = [0; 1; 2; 3; 4; 5]%nat
  /\ exists r,
       SoilAware.recommendations
         (fst (SoilAware.generateRecommendations parseFloat st)) = Some r
       /\ (forall c, In c (crops r) ->
             In (CropSuggestion.name c)
                (map RuleTable.cropName RuleTable.cropRules))
       /\ forall (i j : nat) (a b : CropSuggestion.t),
            (i < j)%nat ->
            nth_error (crops r) i = Some a ->
            nth_error (crops r) j = Some b ->
            CropSuggestion.suitability a = CropSuggestion.suitability b ->
            (RuleTable.position RuleTable.cropRules (CropSuggestion.name a)
             < RuleTable.position RuleTable.cropRules (CropSuggestion.name b))%nat.
Proof.
  intros Hvalid. split; [reflexivity|]. split; [reflexivity|].
  rewrite (generateRecommendations_valid parseFloat st Hvalid).
  eexists. split; [reflexivity|]. cbn [fst crops]. split.
  - intros c Hc. apply (proj1 (sort_In CropSuggestion.suitability c _)) in Hc.
    rewrite cropSuggestions_evaluate in Hc.
    apply evaluate_from_table in Hc as [rule [Hin [_ ->]]].
    apply (in_map RuleTable.cropName) in Hin. exact Hin.
  - intros i j a b Hij Ha Hb Heq.
    assert (H : ranked a b).
    { eapply StronglySorted_nth_error;
        [apply sorted_crops_ranked|exact Hij|exact Ha|exact Hb]. }
    destruct H as [H|[_ H]]; [lia|exact H].
Qed.

(** At 28 degrees on black soil Wheat and Cotton tie at 90: Wheat, the
    earlier rule, is listed first. *)
Lemma ties_in_table_order_witness :
  SoilAware.passesValidation Scenario.warmBlack = true
  /\ map CropSuggestion.name (Scenario.cropsOf Scenario.warmBlack)
     = ["Rice"; "Wheat"; "Cotton"]
  /\ map CropSuggestion.suitability (Scenario.cropsOf Scenario.warmBlack)
     = [95; 90; 90]
  /\ exists r,
       SoilAware.recommendations
         (fst (SoilAware.generateRecommendations Decimal.parseFloat
                 Scenario.warmBlack)) = Some r
       /\ forall (i j : nat) (a b : CropSuggestion.t),
            (i < j)%nat ->
            nth_error (crops r) i = Some a ->
            nth_error (crops r) j = Some b ->
            CropSuggestion.suitability a = CropSuggestion.suitability b ->
            (RuleTable.position RuleTable.cropRules (CropSuggestion.name a)
             < RuleTable.position RuleTable.cropRules (CropSuggestion.name b))%nat.
Proof.
  split; [reflexivity|]. split; [reflexivity|]. split; [reflexivity|].
  destruct (ties_in_table_order Decimal.parseFloat Scenario.warmBlack eq_refl)
    as [_ [_ [r [Hr [_ H]]]]].
  exists r. split; [exact Hr|exact H].
Defined.

(** A suggestion of the unsorted crop array is stored, and conversely. *)
Lemma stored_crops_In (parseFloat : string -> number) (st : SoilAware.State)
    (c : CropSuggestion.t) :
  In c
    (sort bySuitability
       (SoilAware.cropSuggestions (parseFloat (SoilAware.temperature st))
          (SoilAware.soilType st) (potassium (SoilAware.npkValues st))))
  <-> In c
        (RuleTable.evaluate (parseFloat (SoilAware.temperature st))
           (SoilAware.soilType st) (potassium (SoilAware.npkValues st))).
Proof.
  rewrite cropSuggestions_evaluate.
  apply (sort_In CropSuggestion.suitability).
Qed.

(** C6. For every input that passes validation with sandy soil and a
    temperature within the groundnut rule's range 20 to 35, the Groundnut
    suggestion with score 88 is stored whatever the NPK values are, next to
    the suggestion of every general rule whose guard holds at that
    temperature; at temperature 22 the stored crops are exactly Groundnut
    (88), Potato (85) and Wheat (80), for every NPK. *)
Theorem sandy_groundnut_bonus (parseFloat : string -> number)
    (st : SoilAware.State) :
  SoilAware.passesValidation st = true ->
  SoilAware.soilType st = "sandy" ->
  ge (parseFloat (SoilAware.temperature st)) (lit 20)
  && le (parseFloat (SoilAware.temperature st)) (lit 35) = true ->
  exists r,
    SoilAware.recommendations
      (fst (SoilAware.generateRecommendations parseFloat st)) = Some r
    /\ In Entries.groundnut (crops r)
    /\ (ge (parseFloat (SoilAware.temperature st)) (lit 25)
        && le (parseFloat (SoilAware.temperature st)) (lit 35) = true ->
        In (Entries.rice 85 "Optimal temperature for rice cultivation")
           (crops r))
    /\ (ge (parseFloat (SoilAware.temperature st)) (lit 20)
        && le (parseFloat (SoilAware.temperature st)) (lit 30) = true ->
        In (Entries.wheat 80 "Good temperature range for wheat") (crops r))
    /\ (ge (parseFloat (SoilAware.temperature st)) (lit 25)
        && le (parseFloat (SoilAware.temperature st)) (lit 40)
        && gt (potassium (SoilAware.npkValues st)) (lit 40) = true ->
        In (Entries.cotton 75 "High potassium and warm temperature for cotton")
           (crops r))
    /\ (ge (parseFloat (SoilAware.temperature st)) (lit 15)
        && le (parseFloat (SoilAware.temperature st)) (lit 25) = true ->
        In (Entries.potato 85
              "Cool temperature and sandy soil excellent for potato cultivation with good drainage")
           (crops r))
    /\ (strict_equals (parseFloat (SoilAware.temperature st)) (lit 22) = true ->
        crops r
        = [Entries.groundnut;
           Entries.potato 85
             "Cool temperature and sandy soil excellent for potato cultivation with good drainage";
           Entries.wheat 80 "Good temperature range for wheat"]).
Proof.
  intros Hvalid Hsoil Hrange.
  rewrite (generateRecommendations_valid parseFloat st Hvalid).
  eexists. split; [reflexivity|]. cbn [fst crops].
  rewrite Hsoil.
  pose proof (stored_crops_In parseFloat st) as Hstored.
  rewrite Hsoil in Hstored.
  split; [|split; [|split; [|split; [|split]]]].
  - apply Hstored.
    apply (evaluate_In _ "sandy" _ RuleTable.groundnut); [simpl; tauto|exact Hrange].
  - intros H. apply Hstored.
    apply (evaluate_In _ "sandy" _ RuleTable.rice); [simpl; tauto|exact H].
  - intros H. apply Hstored.
    apply (evaluate_In _ "sandy" _ RuleTable.wheat); [simpl; tauto|exact H].
  - intros H. apply Hstored.
    apply (evaluate_In _ "sandy" _ RuleTable.cotton); [simpl; tauto|exact H].
  - intros H. apply Hstored.
    apply (evaluate_In _ "sandy" _ RuleTable.potato); [simpl; tauto|exact H].
  - intros H. unfold SoilAware.cropSuggestions.
    rewrite !(ge_equals_l _ _ _ H), !(le_equals_l _ _ _ H). reflexivity.
Qed.

Lemma sandy_groundnut_bonus_witness :
  SoilAware.passesValidation Scenario.mildSandy = true
  /\ Scenario.cropsOf Scenario.mildSandy
     = [Entries.groundnut;
        Entries.potato 85
          "Cool temperature and sandy soil excellent for potato cultivation with good drainage";
        Entries.wheat 80 "Good temperature range for wheat"]
  /\ exists r,
       SoilAware.recommendations
         (fst (SoilAware.generateRecommendations Decimal.parseFloat
                 Scenario.mildSandy)) = Some r
       /\ In Entries.groundnut (crops r).
Proof.
  split; [reflexivity|]. split; [reflexivity|].
  destruct (sandy_groundnut_bonus Decimal.parseFloat Scenario.mildSandy
              eq_refl eq_refl eq_refl) as [r [Hr [H _]]].
  exists r. split; [exact Hr|exact H].
Defined.

(** The soil-specific reason of every entry of a rule's modifier map names
    the soil category it is filed under. *)
Lemma modifier_reason_names_soil (rule : RuleTable.CropRule)
    (soilType : string) (score : Z) (reason : string) :
  In rule RuleTable.cropRules ->
  RuleTable.lookup soilType (RuleTable.soilModifiers rule)
  = Some (score, reason) ->
  includes reason soilType = true.
Proof.
  intros Hin.
  repeat (destruct Hin as [<-|Hin]); try contradiction;
    cbn [RuleTable.soilModifiers RuleTable.rice RuleTable.wheat
         RuleTable.cotton RuleTable.potato RuleTable.groundnut
         RuleTable.millets RuleTable.lookup];
    repeat match goal with
      | |- context [String.eqb soilType ?soil] =>
          destruct (String.eqb_spec soilType soil) as [->|_];
          [intros [= <- <-]; reflexivity|]
      end;
    intros E; discriminate E.
Qed.

(** C7. For every input that passes validation and every rule of the table
    whose applicability predicate holds, the stored crops contain that
    rule's suggestion with the rule's name and metadata: when the rule's
    modifier map has an entry for the soil type, with the entry's score and
    its soil-specific reason, which names the soil type; otherwise with the
    base score and the generic reason.  So Rice at a temperature in 25 to 35
    on sandy or red soil has suitability 85 and the generic reason. *)
Theorem soil_modifier_resolution (parseFloat : string -> number)
    (st : SoilAware.State) :
  SoilAware.passesValidation st = true ->
  exists r,
    SoilAware.recommendations
      (fst (SoilAware.generateRecommendations parseFloat st)) = Some r
    /\ (forall rule,
          In rule RuleTable.cropRules ->
          RuleTable.applicability rule
            (parseFloat (SoilAware.temperature st)) (SoilAware.soilType st)
            (potassium (SoilAware.npkValues st)) = true ->
          exists c,
            In c (crops r)
            /\ CropSuggestion.name c = RuleTable.cropName rule
            /\ CropSuggestion.growthPeriod c = RuleTable.growthPeriod rule
            /\ CropSuggestion.expectedYield c = RuleTable.expectedYield rule
            /\ CropSuggestion.waterRequirement c
               = RuleTable.waterRequirement rule
            /\ match RuleTable.lookup (SoilAware.soilType st)
                       (RuleTable.soilModifiers rule) with
               | Some (score, reason) =>
                   CropSuggestion.suitability c = score
                   /\ CropSuggestion.reason c = reason
                   /\ includes reason (SoilAware.soilType st) = true
               | None =>
                   CropSuggestion.suitability c = RuleTable.baseScore rule
                   /\ CropSuggestion.reason c = RuleTable.genericReason rule
               end)
    /\ (ge (parseFloat (SoilAware.temperature st)) (lit 25)
        && le (parseFloat (SoilAware.temperature st)) (lit 35) = true ->
        SoilAware.soilType st = "sandy" \/ SoilAware.soilType st = "red" ->
        In (Entries.rice 85 "Optimal temperature for rice cultivation")
           (crops r)).
Proof.
  intros Hvalid.
  rewrite (generateRecommendations_valid parseFloat st Hvalid).
  eexists. split; [reflexivity|]. cbn [fst crops]. split.
  - intros rule Hin Happ.
    exists (RuleTable.resolve rule (SoilAware.soilType st)).
    split; [apply stored_crops_In; now apply evaluate_In|].
    repeat (split; [reflexivity|]).
    unfold RuleTable.resolve. cbn [CropSuggestion.suitability CropSuggestion.reason].
    destruct (RuleTable.lookup (SoilAware.soilType st)
                (RuleTable.soilModifiers rule)) as [[score reason]|] eqn:E.
    + repeat split. eapply modifier_reason_names_soil; eassumption.
    + now split.
  - intros Hrange Hsoil. apply stored_crops_In.
    destruct Hsoil as [Hsoil|Hsoil]; rewrite Hsoil.
    + apply (evaluate_In _ "sandy" _ RuleTable.rice); [simpl; tauto|exact Hrange].
    + apply (evaluate_In _ "red" _ RuleTable.rice); [simpl; tauto|exact Hrange].
Qed.

(** At 30 degrees on red soil Rice has no modifier and Cotton has one. *)
Lemma soil_modifier_resolution_witness :
  SoilAware.passesValidation Scenario.warmRed = true
  /\ map (fun c => (CropSuggestion.name c, CropSuggestion.suitability c))
       (Scenario.cropsOf Scenario.warmRed)
     = [("Cotton", 90); ("Rice", 85); ("Millets", 85); ("Wheat", 80)]
  /\ exists r,
       SoilAware.recommendations
         (fst (SoilAware.generateRecommendations Decimal.parseFloat
                 Scenario.warmRed)) = Some r
       /\ In (Entries.rice 85 "Optimal temperature for rice cultivation")
            (crops r).
Proof.
  split; [reflexivity|]. split; [reflexivity|].
  destruct (soil_modifier_resolution Decimal.parseFloat Scenario.warmRed
              eq_refl) as [r [Hr [_ H]]].
  exists r. split; [exact Hr|]. apply H; [reflexivity|now right].
Defined.

(** C8. For every input that passes validation the evaluation produces a
    result: the handler stores a recommendation value, shows the success
    toast and no error, and the fertilizer list is not empty.  The crop list
    may be empty: it is whenever the temperature is above 40, whatever the
    soil type. *)
Theorem evaluation_total (parseFloat : string -> number)
    (st : SoilAware.State) :
  SoilAware.passesValidation st = true ->
  exists r,
    SoilAware.generateRecommendations parseFloat st
    = (SoilAware.mkState (SoilAware.temperature st) (SoilAware.soilType st)
         (SoilAware.npkValues st) false (Some r),
       [toast_success "AI recommendations generated successfully!"])
    /\ fertilizers r <> []
    /\ (gt (parseFloat (SoilAware.temperature st)) (lit 40) = true ->
        crops r = []).
Proof.
  intros Hvalid.
  rewrite (generateRecommendations_valid parseFloat st Hvalid).
  eexists. split; [reflexivity|]. cbn [fertilizers crops]. split.
  - rewrite fertilizerSuggestions_app.
    destruct (lt _ _), (lt _ _), (lt _ _); discriminate.
  - intros Hhot. unfold SoilAware.cropSuggestions.
    rewrite (gt_le_false _ 40 35), (gt_le_false _ 40 30),
      (gt_le_false _ 40 40), (gt_le_false _ 40 25) by (lia || exact Hhot).
    rewrite !andb_false_r. reflexivity.
Qed.

Lemma evaluation_total_witness :
  SoilAware.passesValidation Scenario.hotLoamy = true
  /\ exists r,
       SoilAware.generateRecommendations Decimal.parseFloat Scenario.hotLoamy
       = (SoilAware.mkState "45" "loamy" (mkNPK (lit 45) (lit 35) (lit 50))
            false (Some r),
          [toast_success "AI recommendations generated successfully!"])
       /\ fertilizers r <> []
       /\ crops r = [].
Proof.
  split; [reflexivity|].
  destruct (evaluation_total Decimal.parseFloat Scenario.hotLoamy eq_refl)
    as [r [Hr [Hf Hc]]].
  exists r. split; [exact Hr|]. split; [exact Hf|]. apply Hc. reflexivity.
Defined.

(** Validation reads the three input cells only. *)
Lemma passesValidation_inputs (st st' : SoilAware.State) :
  SoilAware.temperature st' = SoilAware.temperature st ->
  SoilAware.soilType st' = SoilAware.soilType st ->
  SoilAware.npkValues st' = SoilAware.npkValues st ->
  SoilAware.passesValidation st' = SoilAware.passesValidation st.
Proof.
  unfold SoilAware.passesValidation. now intros -> -> ->.
Qed.

(** C9. The engine is deterministic and leaves nothing behind that changes
    a later evaluation: pressing the button again on the state the first
    evaluation produced gives the same state and the same toasts; and two
    states with the same temperature, soil type and NPK values get the same
    toasts and, when the input is valid, the same stored crop and fertilizer
    sequences, whatever was loading or stored before. *)
Theorem evaluation_deterministic (parseFloat : string -> number)
    (st : SoilAware.State) :
  SoilAware.generateRecommendations parseFloat
    (fst (SoilAware.generateRecommendations parseFloat st))
  = SoilAware.generateRecommendations parseFloat st
  /\ forall st' : SoilAware.State,
       SoilAware.temperature st' = SoilAware.temperature st ->
       SoilAware.soilType st' = SoilAware.soilType st ->
       SoilAware.npkValues st' = SoilAware.npkValues st ->
       snd (SoilAware.generateRecommendations parseFloat st')
       = snd (SoilAware.generateRecommendations parseFloat st)
       /\ (SoilAware.passesValidation st = true ->
           exists r,
             SoilAware.recommendations
               (fst (SoilAware.generateRecommendations parseFloat st'))
             = Some r
             /\ SoilAware.recommendations
                  (fst (SoilAware.generateRecommendations parseFloat st))
                = Some r).
Proof.
  split.
  - destruct (SoilAware.passesValidation st) eqn:Hvalid.
    + rewrite (generateRecommendations_valid parseFloat st Hvalid).
      cbn [fst]. rewrite generateRecommendations_valid; [reflexivity|].
      rewrite <- Hvalid. now apply passesValidation_inputs.
    + destruct (generateRecommendations_invalid parseFloat st Hvalid)
        as [message E].
      rewrite E. cbn [fst]. exact E.
  - intros st' Ht Hs Hn.
    pose proof (passesValidation_inputs st st' Ht Hs Hn) as Hsame.
    destruct (SoilAware.passesValidation st) eqn:Hvalid.
    + rewrite (generateRecommendations_valid parseFloat st Hvalid),
        (generateRecommendations_valid parseFloat st' Hsame).
      rewrite Ht, Hs, Hn. cbn [fst snd SoilAware.recommendations].
      split; [reflexivity|]. intros _. eexists. split; reflexivity.
    + split; [|discriminate].
      unfold SoilAware.passesValidation in Hvalid, Hsame.
      unfold SoilAware.generateRecommendations.
      rewrite Ht, Hs, Hn.
      destruct (not_ (SoilAware.temperature st)
                || (SoilAware.temperature st =? "0")%string);
        [reflexivity|].
      destruct (not_ (SoilAware.soilType st)); [reflexivity|].
      destruct (strict_equals (nitrogen (SoilAware.npkValues st)) (lit 0)
                && strict_equals (phosphorus (SoilAware.npkValues st)) (lit 0)
                && strict_equals (potassium (SoilAware.npkValues st)) (lit 0));
        [reflexivity|discriminate].
Qed.

(** C10. The two components build the same fertilizer sequence from the
    same NPK values: the two arrays are equal for all nitrogen, phosphorus
    and potassium values, and whenever the simple component accepts an
    input, the soil-aware one (with any soil selected) stores the same
    fertilizer sequence for it. *)
Theorem variants_same_fertilizers :
  (forall n p k : number,
     Simple.fertilizerSuggestions n p k
     = SoilAware.fertilizerSuggestions n p k)
  /\ (forall (parseFloat : string -> number) (st : Simple.State)
        (st' : SoilAware.State),
        SoilAware.temperature st' = Simple.temperature st ->
        SoilAware.npkValues st' = Simple.npkValues st ->
        SoilAware.soilType st' <> "" ->
        Simple.passesValidation st = true ->
        exists r r',
          Simple.recommendations
            (fst (Simple.generateRecommendations parseFloat st)) = Some r
          /\ SoilAware.recommendations
               (fst (SoilAware.generateRecommendations parseFloat st'))
             = Some r'
          /\ fertilizers r = fertilizers r')
  /\ (exists r r',
        Simple.recommendations
          (fst (Simple.generateRecommendations Decimal.parseFloat
                  Scenario.depletedSimple)) = Some r
        /\ SoilAware.recommendations
             (fst (SoilAware.generateRecommendations Decimal.parseFloat
                     Scenario.depleted)) = Some r'
        /\ fertilizers r = fertilizers r'
        /\ fertilizers r
           = [Entries.urea; Entries.dap; Entries.muriateOfPotash;
              Entries.vermicompost]).
Proof.
  split; [|split].
  - intros n p k.
    unfold Simple.fertilizerSuggestions, SoilAware.fertilizerSuggestions.
    destruct (lt n (lit 50)), (lt p (lit 40)), (lt k (lit 45)); reflexivity.
  - intros parseFloat st st' Ht Hn Hs Hvalid.
    assert (Hvalid' : SoilAware.passesValidation st' = true).
    { unfold SoilAware.passesValidation, Simple.passesValidation in *.
      rewrite Ht, Hn. apply andb_true_iff in Hvalid as [H1 H2].
      rewrite H1, H2. apply String.eqb_neq in Hs. unfold not_. now rewrite Hs. }
    rewrite (simple_generateRecommendations_valid parseFloat st Hvalid),
      (generateRecommendations_valid parseFloat st' Hvalid').
    do 2 eexists. split; [reflexivity|]. split; [reflexivity|].
    cbn [fertilizers]. now rewrite Hn.
  - do 2 eexists. repeat split.
Qed.

(** C1 (as amended). At temperature 28 on black soil with NPK 45/35/50 the
    stored crops are Rice with score 95, Wheat with score 90 and Cotton with
    score 90, each with its black-soil reason, in this order: Wheat and
    Cotton tie and Wheat, the earlier rule, comes first. *)
Theorem scenario_warm_black (parseFloat : string -> number)
    (loading : bool) (previous : option Recommendations) :
  strict_equals (parseFloat "28") (lit 28) = true ->
  exists r,
    SoilAware.generateRecommendations parseFloat
      (SoilAware.mkState "28" "black" (mkNPK (lit 45) (lit 35) (lit 50))
         loading previous)
    = (SoilAware.mkState "28" "black" (mkNPK (lit 45) (lit 35) (lit 50))
         false (Some r),
       [toast_success "AI recommendations generated successfully!"])
    /\ crops r
       = [Entries.rice 95
            "Optimal temperature and black soil excellent for rice cultivation with high water retention";
          Entries.wheat 90
            "Good temperature range and black soil ideal for wheat cultivation";
          Entries.cotton 90
            "High potassium, warm temperature and black soil excellent for cotton cultivation"]
    /\ Forall (fun c => includes (CropSuggestion.reason c) "black" = true)
         (crops r).
Proof.
  intros H. rewrite generateRecommendations_valid by reflexivity.
  eexists. split; [reflexivity|].
  cbn [crops SoilAware.temperature SoilAware.soilType SoilAware.npkValues
       potassium].
  unfold SoilAware.cropSuggestions.
  rewrite !(ge_equals_l _ _ _ H), !(le_equals_l _ _ _ H).
  split; [reflexivity|]. repeat constructor.
Qed.

Lemma scenario_warm_black_witness :
  strict_equals (Decimal.parseFloat "28") (lit 28) = true
  /\ map (fun c => (CropSuggestion.name c, CropSuggestion.suitability c))
       (Scenario.cropsOf Scenario.warmBlack)
     = [("Rice", 95); ("Wheat", 90); ("Cotton", 90)].
Proof.
  split; [reflexivity|].
  destruct (scenario_warm_black Decimal.parseFloat false None eq_refl)
    as [r [Hr [Hc _]]].
  unfold Scenario.cropsOf, Scenario.warmBlack. rewrite Hr.
  cbn [fst SoilAware.recommendations]. rewrite Hc. reflexivity.
Defined.

(** C1 as stated fails on the code: in that run no stored Wheat suggestion
    has score 85, and Cotton is not listed before Wheat. *)
Lemma scenario_warm_black_not_as_stated :
  ~ (exists c,
       In c (Scenario.cropsOf Scenario.warmBlack)
       /\ CropSuggestion.name c = "Wheat"
       /\ CropSuggestion.suitability c = 85)
  /\ ~ (exists (i j : nat) (c w : CropSuggestion.t),
          (i < j)%nat
          /\ nth_error (Scenario.cropsOf Scenario.warmBlack) i = Some c
          /\ nth_error (Scenario.cropsOf Scenario.warmBlack) j = Some w
          /\ CropSuggestion.name c = "Cotton"
          /\ CropSuggestion.name w = "Wheat").
Proof.
  split.
  - intros [c [Hin [Hname Hscore]]].
    vm_compute in Hin.
    destruct Hin as [<-|[<-|[<-|[]]]]; discriminate.
  - intros [i [j [c [w [Hij [Hc [Hw [Hnc Hnw]]]]]]]].
    assert (E : map CropSuggestion.name (Scenario.cropsOf Scenario.warmBlack)
                = ["Rice"; "Wheat"; "Cotton"]) by reflexivity.
    apply (map_nth_error CropSuggestion.name) in Hc, Hw.
    rewrite E, Hnc in Hc. rewrite E, Hnw in Hw.
    destruct i as [|[|[|i]]]; try discriminate Hc.
    + destruct j as [|[|[|j]]]; try discriminate Hw; try lia.
      destruct j; discriminate Hw.
    + destruct i; discriminate Hc.
Qed.

(** ** Further properties of the two crop components *)

(** X1. The simple component checks the temperature first and the NPK
    values second; a failure shows exactly one error toast and leaves the
    state as it was, and an error is shown exactly when one of the two
    checks fails. *)
Theorem simple_validation_order (parseFloat : string -> number)
    (st : Simple.State) :
  (Simple.temperature st = "" \/ Simple.temperature st = "0" ->
   Simple.generateRecommendations parseFloat st
   = (st, [toast_error "Please enter the current temperature"]))
  /\ (Simple.temperature st <> "" -> Simple.temperature st <> "0" ->
      strict_equals (nitrogen (Simple.npkValues st)) (lit 0) = true ->
      strict_equals (phosphorus (Simple.npkValues st)) (lit 0) = true ->
      strict_equals (potassium (Simple.npkValues st)) (lit 0) = true ->
      Simple.generateRecommendations parseFloat st
      = (st, [toast_error "Please enter NPK values"]))
  /\ (Simple.passesValidation st = false <->
      exists message,
        Simple.generateRecommendations parseFloat st
        = (st, [toast_error message]))
  /\ (Simple.passesValidation st = true ->
      exists r,
        Simple.generateRecommendations parseFloat st
        = (Simple.mkState (Simple.temperature st) (Simple.npkValues st)
             false (Some r),
           [toast_success "AI recommendations generated successfully!"])).
Proof.
  split; [|split; [|split]].
  - unfold Simple.generateRecommendations, not_.
    intros [E|E]; rewrite E; reflexivity.
  - unfold Simple.generateRecommendations, not_. intros H1 H2 Hn Hp Hk.
    apply String.eqb_neq in H1, H2. rewrite H1, H2, Hn, Hp, Hk. reflexivity.
  - split.
    + unfold Simple.passesValidation, Simple.generateRecommendations.
      intros H.
      destruct (not_ (Simple.temperature st)
                || (Simple.temperature st =? "0")%string);
        [eexists; reflexivity|].
      destruct (strict_equals (nitrogen (Simple.npkValues st)) (lit 0)
                && strict_equals (phosphorus (Simple.npkValues st)) (lit 0)
                && strict_equals (potassium (Simple.npkValues st)) (lit 0));
        [eexists; reflexivity|discriminate].
    + intros [message E].
      destruct (Simple.passesValidation st) eqn:Hvalid; [|reflexivity].
      rewrite (simple_generateRecommendations_valid parseFloat st Hvalid)
        in E.
      discriminate.
  - intros Hvalid.
    rewrite (simple_generateRecommendations_valid parseFloat st Hvalid).
    eexists. reflexivity.
Qed.

(** The simple component pushes its crops in descending score order. *)
Lemma simple_cropSuggestions_descending (temp k : number) :
  StronglySorted
    (fun a b => CropSuggestion.suitability a > CropSuggestion.suitability b)
    (Simple.cropSuggestions temp k)
  /\ sort bySuitability (Simple.cropSuggestions temp k)
     = Simple.cropSuggestions temp k.
Proof.
  unfold Simple.cropSuggestions.
  generalize (ge temp (lit 25) && le temp (lit 35)),
    (ge temp (lit 20) && le temp (lit 30)),
    (ge temp (lit 25) && le temp (lit 40) && gt k (lit 40)),
    (ge temp (lit 15) && le temp (lit 25)).
  intros b1 b2 b3 b4.
  destruct b1, b2, b3, b4; split; try reflexivity;
    repeat constructor.
Qed.

(** X2. In the simple component the scores are fixed (Rice 95, Wheat 88,
    Cotton 82, Potato 78) and the rules are written in that order, so for
    every input that passes validation the stored crop list is the pushed
    array itself: sorting moves nothing, and the scores are strictly
    decreasing along the list. *)
Theorem simple_ranking_is_rule_order (parseFloat : string -> number)
    (st : Simple.State) :
  Simple.passesValidation st = true ->
  exists r,
    Simple.recommendations
      (fst (Simple.generateRecommendations parseFloat st)) = Some r
    /\ crops r
       = Simple.cropSuggestions (parseFloat (Simple.temperature st))
           (potassium (Simple.npkValues st))
    /\ (forall (i j : nat) (a b : CropSuggestion.t),
          (i < j)%nat ->
          nth_error (crops r) i = Some a ->
          nth_error (crops r) j = Some b ->
          CropSuggestion.suitability a > CropSuggestion.suitability b)
    /\ (forall c, In c (crops r) ->
          In (CropSuggestion.name c, CropSuggestion.suitability c)
             [("Rice", 95); ("Wheat", 88); ("Cotton", 82); ("Potato", 78)]).
Proof.
  intros Hvalid.
  rewrite (simple_generateRecommendations_valid parseFloat st Hvalid).
  eexists. split; [reflexivity|]. cbn [fst crops].
  destruct (simple_cropSuggestions_descending
              (parseFloat (Simple.temperature st))
              (potassium (Simple.npkValues st))) as [Hsorted Hsame].
  rewrite Hsame. split; [reflexivity|]. split.
  - intros i j a b Hij Ha Hb.
    exact (StronglySorted_nth_error _ _ Hsorted i j a b Hij Ha Hb).
  - unfold Simple.cropSuggestions. intros c.
    generalize (ge (parseFloat (Simple.temperature st)) (lit 25)
                && le (parseFloat (Simple.temperature st)) (lit 35)),
      (ge (parseFloat (Simple.temperature st)) (lit 20)
       && le (parseFloat (Simple.temperature st)) (lit 30)),
      (ge (parseFloat (Simple.temperature st)) (lit 25)
       && le (parseFloat (Simple.temperature st)) (lit 40)
       && gt (potassium (Simple.npkValues st)) (lit 40)),
      (ge (parseFloat (Simple.temperature st)) (lit 15)
       && le (parseFloat (Simple.temperature st)) (lit 25)).
    intros b1 b2 b3 b4.
    destruct b1, b2, b3, b4; cbn; intuition (subst; cbn; tauto).
Qed.

Lemma simple_ranking_is_rule_order_witness :
  Simple.passesValidation Scenario.depletedSimple = true
  /\ exists r,
       Simple.recommendations
         (fst (Simple.generateRecommendations Decimal.parseFloat
                 Scenario.depletedSimple)) = Some r
       /\ map CropSuggestion.name (crops r) = ["Rice"; "Wheat"].
Proof.
  split; [reflexivity|].
  destruct (simple_ranking_is_rule_order Decimal.parseFloat
              Scenario.depletedSimple eq_refl) as [r [Hr [Hc _]]].
  exists r. split; [exact Hr|]. rewrite Hc. reflexivity.
Defined.

(** No two rules of the table share a crop name. *)
Lemma cropName_injective (rule rule' : RuleTable.CropRule) :
  In rule RuleTable.cropRules -> In rule' RuleTable.cropRules ->
  RuleTable.cropName rule = RuleTable.cropName rule' -> rule = rule'.
Proof.
  intros H H'.
  repeat (destruct H as [<-|H]); try contradiction;
    repeat (destruct H' as [<-|H']); try contradiction;
    intros E; try reflexivity; discriminate E.
Qed.

(** A crop name is in the table's output exactly when its rule applies. *)
Lemma evaluate_name_iff (temp : number) (soilType : string) (k : number)
    (rule : RuleTable.CropRule) :
  In rule RuleTable.cropRules ->
  ((exists c,
      In c (RuleTable.evaluate temp soilType k)
      /\ CropSuggestion.name c = RuleTable.cropName rule)
   <-> RuleTable.applicability rule temp soilType k = true).
Proof.
  intros Hin. split.
  - intros [c [Hc Hname]].
    apply evaluate_from_table in Hc as [rule' [Hin' [Happ ->]]].
    cbn in Hname.
    now rewrite <- (cropName_injective rule' rule Hin' Hin Hname).
  - intros Happ. exists (RuleTable.resolve rule soilType).
    split; [now apply evaluate_In|reflexivity].
Qed.

(** X4. For every input that passes validation, a crop is in the stored
    list exactly when the guard of its block holds: Rice for 25 to 35
    degrees, Wheat for 20 to 30, Cotton for 25 to 40 with potassium above
    40, Potato for 15 to 25, Groundnut for sandy soil at 20 to 35 and
    Millets for red soil at 20 to 30.  Nothing else decides presence. *)
Theorem crop_stored_iff_guard (parseFloat : string -> number)
    (st : SoilAware.State) :
  SoilAware.passesValidation st = true ->
  exists r,
    SoilAware.recommendations
      (fst (SoilAware.generateRecommendations parseFloat st)) = Some r
    /\ (forall rule, In rule RuleTable.cropRules ->
          ((exists c, In c (crops r)
                      /\ CropSuggestion.name c = RuleTable.cropName rule)
           <-> RuleTable.applicability rule
                 (parseFloat (SoilAware.temperature st))
                 (SoilAware.soilType st)
                 (potassium (SoilAware.npkValues st)) = true))
    /\ ((exists c, In c (crops r) /\ CropSuggestion.name c = "Rice")
        <-> ge (parseFloat (SoilAware.temperature st)) (lit 25)
            && le (parseFloat (SoilAware.temperature st)) (lit 35) = true)
    /\ ((exists c, In c (crops r) /\ CropSuggestion.name c = "Wheat")
        <-> ge (parseFloat (SoilAware.temperature st)) (lit 20)
            && le (parseFloat (SoilAware.temperature st)) (lit 30) = true)
    /\ ((exists c, In c (crops r) /\ CropSuggestion.name c = "Cotton")
        <-> ge (parseFloat (SoilAware.temperature st)) (lit 25)
            && le (parseFloat (SoilAware.temperature st)) (lit 40)
            && gt (potassium (SoilAware.npkValues st)) (lit 40) = true)
    /\ ((exists c, In c (crops r) /\ CropSuggestion.name c = "Potato")
        <-> ge (parseFloat (SoilAware.temperature st)) (lit 15)
            && le (parseFloat (SoilAware.temperature st)) (lit 25) = true)
    /\ ((exists c, In c (crops r) /\ CropSuggestion.name c = "Groundnut")
        <-> (SoilAware.soilType st =? "sandy")%string
            && ge (parseFloat (SoilAware.temperature st)) (lit 20)
            && le (parseFloat (SoilAware.temperature st)) (lit 35) = true)
    /\ ((exists c, In c (crops r) /\ CropSuggestion.name c = "Millets")
        <-> (SoilAware.soilType st =? "red")%string
            && ge (parseFloat (SoilAware.temperature st)) (lit 20)
            && le (parseFloat (SoilAware.temperature st)) (lit 30) = true).
Proof.
  intros Hvalid.
  rewrite (generateRecommendations_valid parseFloat st Hvalid).
  eexists. split; [reflexivity|]. cbn [fst crops].
  assert (H : forall rule, In rule RuleTable.cropRules ->
            ((exists c,
                In c (sort bySuitability
                        (SoilAware.cropSuggestions
                           (parseFloat (SoilAware.temperature st))
                           (SoilAware.soilType st)
                           (potassium (SoilAware.npkValues st))))
                /\ CropSuggestion.name c = RuleTable.cropName rule)
             <-> RuleTable.applicability rule
                   (parseFloat (SoilAware.temperature st))
                   (SoilAware.soilType st)
                   (potassium (SoilAware.npkValues st)) = true)).
  { intros rule Hin. rewrite <- (evaluate_name_iff _ _ _ rule Hin).
    split; intros [c [Hc Hname]]; exists c; split; try exact Hname;
      now apply stored_crops_In. }
  split; [exact H|].
  repeat split;
    first [ apply (proj1 (H RuleTable.rice ltac:(simpl; tauto)))
          | apply (proj2 (H RuleTable.rice ltac:(simpl; tauto)))
          | apply (proj1 (H RuleTable.wheat ltac:(simpl; tauto)))
          | apply (proj2 (H RuleTable.wheat ltac:(simpl; tauto)))
          | apply (proj1 (H RuleTable.cotton ltac:(simpl; tauto)))
          | apply (proj2 (H RuleTable.cotton ltac:(simpl; tauto)))
          | apply (proj1 (H RuleTable.potato ltac:(simpl; tauto)))
          | apply (proj2 (H RuleTable.potato ltac:(simpl; tauto)))
          | apply (proj1 (H RuleTable.groundnut ltac:(simpl; tauto)))
          | apply (proj2 (H RuleTable.groundnut ltac:(simpl; tauto)))
          | apply (proj1 (H RuleTable.millets ltac:(simpl; tauto)))
          | apply (proj2 (H RuleTable.millets ltac:(simpl; tauto))) ].
Qed.

Lemma crop_stored_iff_guard_witness :
  SoilAware.passesValidation Scenario.warmRed = true
  /\ exists r,
       SoilAware.recommendations
         (fst (SoilAware.generateRecommendations Decimal.parseFloat
                 Scenario.warmRed)) = Some r
       /\ (exists c, In c (crops r) /\ CropSuggestion.name c = "Millets")
       /\ ~ (exists c, In c (crops r) /\ CropSuggestion.name c = "Potato").
Proof.
  split; [reflexivity|].
  destruct (crop_stored_iff_guard Decimal.parseFloat Scenario.warmRed eq_refl)
    as [r [Hr [_ [_ [_ [_ [Hpotato [_ Hmillets]]]]]]]].
  exists r. split; [exact Hr|]. split.
  - apply Hmillets. reflexivity.
  - intros H. apply Hpotato in H. discriminate H.
Defined.

(** A list in strict table order has no crop name twice. *)
Lemma table_order_NoDup (l : list CropSuggestion.t) :
  StronglySorted
    (fun a b =>
       (RuleTable.position RuleTable.cropRules (CropSuggestion.name a)
        < RuleTable.position RuleTable.cropRules (CropSuggestion.name b))%nat)
    l ->
  NoDup (map CropSuggestion.name l).
Proof.
  induction 1 as [|x l Hl IH Hx]; cbn [map]; constructor; [|exact IH].
  intros Hin. apply in_map_iff in Hin as [y [Hname Hy]].
  rewrite Forall_forall in Hx. specialize (Hx y Hy).
  rewrite Hname in Hx. lia.
Qed.

(** Every score the table can emit lies between 70 and 95. *)
Lemma resolve_score_bounds (rule : RuleTable.CropRule) (soilType : string) :
  In rule RuleTable.cropRules ->
  70 <= CropSuggestion.suitability (RuleTable.resolve rule soilType) <= 95.
Proof.
  intros Hin.
  repeat (destruct Hin as [<-|Hin]); try contradiction;
    unfold RuleTable.resolve;
    cbn [RuleTable.soilModifiers RuleTable.rice RuleTable.wheat
         RuleTable.cotton RuleTable.potato RuleTable.groundnut
         RuleTable.millets RuleTable.lookup RuleTable.baseScore
         CropSuggestion.suitability];
    repeat match goal with
      | |- context [String.eqb soilType ?soil] =>
          destruct (String.eqb soilType soil)
      end;
    cbn [fst]; lia.
Qed.

(** Groundnut needs sandy soil and Millets red soil. *)
Lemma bonus_rules_exclusive (temp : number) (soilType : string) (k : number) :
  RuleTable.applicability RuleTable.groundnut temp soilType k = true ->
  RuleTable.applicability RuleTable.millets temp soilType k = true ->
  False.
Proof.
  cbn [RuleTable.applicability RuleTable.groundnut RuleTable.millets].
  intros H1 H2.
  apply andb_true_iff in H1 as [H1 _]. apply andb_true_iff in H1 as [H1 _].
  apply andb_true_iff in H2 as [H2 _]. apply andb_true_iff in H2 as [H2 _].
  apply String.eqb_eq in H1, H2. rewrite H1 in H2. discriminate H2.
Qed.

Lemma evaluate_length (temp : number) (soilType : string) (k : number) :
  (List.length (RuleTable.evaluate temp soilType k) <= 5)%nat.
Proof.
  pose proof (bonus_rules_exclusive temp soilType k) as Hex.
  unfold RuleTable.evaluate, RuleTable.cropRules, RuleTable.fire.
  cbn [flat_map].
  destruct (RuleTable.applicability RuleTable.rice temp soilType k),
    (RuleTable.applicability RuleTable.wheat temp soilType k),
    (RuleTable.applicability RuleTable.cotton temp soilType k),
    (RuleTable.applicability RuleTable.potato temp soilType k),
    (RuleTable.applicability RuleTable.groundnut temp soilType k),
    (RuleTable.applicability RuleTable.millets temp soilType k);
    cbn [app List.length]; try lia; exfalso; now apply Hex.
Qed.

(** X5. For every input that passes validation the stored crop list names
    no crop twice, has at most five entries, never holds Groundnut and
    Millets together, and every score in it lies between 70 and 95. *)
Theorem crops_distinct_and_bounded (parseFloat : string -> number)
    (st : SoilAware.State) :
  SoilAware.passesValidation st = true ->
  exists r,
    SoilAware.recommendations
      (fst (SoilAware.generateRecommendations parseFloat st)) = Some r
    /\ NoDup (map CropSuggestion.name (crops r))
    /\ (List.length (crops r) <= 5)%nat
    /\ ~ (In "Groundnut" (map CropSuggestion.name (crops r))
          /\ In "Millets" (map CropSuggestion.name (crops r)))
    /\ (forall c, In c (crops r) -> 70 <= CropSuggestion.suitability c <= 95).
Proof.
  intros Hvalid.
  rewrite (generateRecommendations_valid parseFloat st Hvalid).
  eexists. split; [reflexivity|]. cbn [fst crops].
  rewrite cropSuggestions_evaluate.
  set (l := RuleTable.evaluate _ _ _).
  assert (Hperm : Permutation l (sort bySuitability l))
    by apply (sort_Permutation CropSuggestion.suitability).
  split; [|split; [|split]].
  - eapply Permutation_NoDup; [apply Permutation_map; exact Hperm|].
    apply table_order_NoDup. apply evaluate_table_order.
  - rewrite <- (Permutation_length Hperm). apply evaluate_length.
  - intros [Hg Hm].
    apply in_map_iff in Hg as [g [Hgn Hg]].
    apply in_map_iff in Hm as [m [Hmn Hm]].
    apply (Permutation_in _ (Permutation_sym Hperm)) in Hg, Hm.
    eapply bonus_rules_exclusive.
    + apply (evaluate_name_iff _ _ _ RuleTable.groundnut); [simpl; tauto|].
      exists g. split; [exact Hg|exact Hgn].
    + apply (evaluate_name_iff _ _ _ RuleTable.millets); [simpl; tauto|].
      exists m. split; [exact Hm|exact Hmn].
  - intros c Hc.
    apply (Permutation_in _ (Permutation_sym Hperm)) in Hc.
    apply evaluate_from_table in Hc as [rule [Hin [_ ->]]].
    now apply resolve_score_bounds.
Qed.

(** Five crops are reached: 25 degrees, sandy soil, potassium 50. *)
Lemma crops_distinct_and_bounded_witness :
  SoilAware.passesValidation Runs.fiveCrops = true
  /\ map (fun c => (CropSuggestion.name c, CropSuggestion.suitability c))
       (Scenario.cropsOf Runs.fiveCrops)
     = [("Groundnut", 88); ("Rice", 85); ("Potato", 85); ("Wheat", 80);
        ("Cotton", 75)]
  /\ exists r,
       SoilAware.recommendations
         (fst (SoilAware.generateRecommendations Decimal.parseFloat
                 Runs.fiveCrops)) = Some r
       /\ NoDup (map CropSuggestion.name (crops r))
       /\ (List.length (crops r) <= 5)%nat.
Proof.
  split; [reflexivity|]. split; [reflexivity|].
  destruct (crops_distinct_and_bounded Decimal.parseFloat Runs.fiveCrops
              eq_refl) as [r [Hr [Hn [Hl _]]]].
  exists r. split; [exact Hr|]. split; [exact Hn|exact Hl].
Defined.

(** The crop names of the simple array are those of the soil-aware array
    without the two soil-specific crops, in the same order. *)
Lemma simple_names_are_general_names (temp : number) (soilType : string)
    (k : number) :
  map CropSuggestion.name (Simple.cropSuggestions temp k)
  = filter
      (fun n => negb (n =? "Groundnut")%string && negb (n =? "Millets")%string)
      (map CropSuggestion.name (SoilAware.cropSuggestions temp soilType k)).
Proof.
  rewrite cropSuggestions_evaluate.
  unfold Simple.cropSuggestions, RuleTable.evaluate, RuleTable.cropRules,
    RuleTable.fire.
  cbn [flat_map RuleTable.applicability RuleTable.rice RuleTable.wheat
       RuleTable.cotton RuleTable.potato RuleTable.groundnut
       RuleTable.millets].
  generalize (ge temp (lit 25) && le temp (lit 35)),
    (ge temp (lit 20) && le temp (lit 30)),
    (ge temp (lit 25) && le temp (lit 40) && gt k (lit 40)),
    (ge temp (lit 15) && le temp (lit 25)),
    ((soilType =? "sandy")%string && ge temp (lit 20) && le temp (lit 35)),
    ((soilType =? "red")%string && ge temp (lit 20) && le temp (lit 30)).
  intros b1 b2 b3 b4 b5 b6.
  destruct b1, b2, b3, b4, b5, b6; reflexivity.
Qed.

(** X3. The two components agree on which general crops to suggest: for the
    same temperature and NPK values, a crop name is stored by the simple
    component exactly when the soil-aware component stores it and it is
    neither Groundnut nor Millets, whatever soil is selected.  Only the
    scores, the reasons and hence the order differ. *)
Theorem variants_same_general_crops (parseFloat : string -> number)
    (st : Simple.State) (st' : SoilAware.State) :
  SoilAware.temperature st' = Simple.temperature st ->
  SoilAware.npkValues st' = Simple.npkValues st ->
  SoilAware.soilType st' <> "" ->
  Simple.passesValidation st = true ->
  exists r r',
    Simple.recommendations
      (fst (Simple.generateRecommendations parseFloat st)) = Some r
    /\ SoilAware.recommendations
         (fst (SoilAware.generateRecommendations parseFloat st')) = Some r'
    /\ forall n : string,
         In n (map CropSuggestion.name (crops r))
         <-> (In n (map CropSuggestion.name (crops r'))
              /\ n <> "Groundnut" /\ n <> "Millets").
Proof.
  intros Ht Hn Hs Hvalid.
  assert (Hvalid' : SoilAware.passesValidation st' = true).
  { unfold SoilAware.passesValidation, Simple.passesValidation in *.
    rewrite Ht, Hn. apply andb_true_iff in Hvalid as [H1 H2].
    rewrite H1, H2. apply String.eqb_neq in Hs. unfold not_. now rewrite Hs. }
  rewrite (simple_generateRecommendations_valid parseFloat st Hvalid),
    (generateRecommendations_valid parseFloat st' Hvalid').
  do 2 eexists. split; [reflexivity|]. split; [reflexivity|].
  cbn [fst crops]. rewrite Ht, Hn. intros n.
  set (l := Simple.cropSuggestions _ _).
  set (l' := SoilAware.cropSuggestions _ _ _).
  assert (Hl : In n (map CropSuggestion.name (sort bySuitability l))
               <-> In n (map CropSuggestion.name l)).
  { split; apply Permutation_in; apply Permutation_map;
      [symmetry|]; apply (sort_Permutation CropSuggestion.suitability). }
  assert (Hl' : In n (map CropSuggestion.name (sort bySuitability l'))
                <-> In n (map CropSuggestion.name l')).
  { split; apply Permutation_in; apply Permutation_map;
      [symmetry|]; apply (sort_Permutation CropSuggestion.suitability). }
  rewrite Hl, Hl'. unfold l, l'.
  rewrite (simple_names_are_general_names _ (SoilAware.soilType st') _).
  rewrite filter_In, andb_true_iff, !negb_true_iff, !String.eqb_neq.
  tauto.
Qed.

Lemma variants_same_general_crops_witness :
  Simple.passesValidation Runs.fourCropsSimple = true
  /\ exists r r',
       Simple.recommendations
         (fst (Simple.generateRecommendations Decimal.parseFloat
                 Runs.fourCropsSimple)) = Some r
       /\ SoilAware.recommendations
            (fst (SoilAware.generateRecommendations Decimal.parseFloat
                    Runs.fiveCrops)) = Some r'
       /\ map CropSuggestion.name (crops r)
          = ["Rice"; "Wheat"; "Cotton"; "Potato"]
       /\ map CropSuggestion.name (crops r')
          = ["Groundnut"; "Rice"; "Potato"; "Wheat"; "Cotton"].
Proof.
  split; [reflexivity|].
  destruct (variants_same_general_crops Decimal.parseFloat
              Runs.fourCropsSimple Runs.fiveCrops eq_refl eq_refl
              ltac:(discriminate) eq_refl) as [r [r' [Hr [Hr' _]]]].
  exists r, r'. split; [exact Hr|]. split; [exact Hr'|].
  vm_compute in Hr, Hr'. injection Hr as <-. injection Hr' as <-.
  split; reflexivity.
Defined.

(** X6. The crop list does not read nitrogen or phosphorus, and the
    fertilizer list does not read the temperature or the soil type: two
    valid inputs with the same temperature, soil type and potassium get the
    same crops, and two valid inputs with the same NPK values get the same
    fertilizers. *)
Theorem crops_and_fertilizers_independent (parseFloat : string -> number)
    (st st' : SoilAware.State) :
  SoilAware.passesValidation st = true ->
  SoilAware.passesValidation st' = true ->
  exists r r',
    SoilAware.recommendations
      (fst (SoilAware.generateRecommendations parseFloat st)) = Some r
    /\ SoilAware.recommendations
         (fst (SoilAware.generateRecommendations parseFloat st')) = Some r'
    /\ (SoilAware.temperature st = SoilAware.temperature st' ->
        SoilAware.soilType st = SoilAware.soilType st' ->
        potassium (SoilAware.npkValues st)
        = potassium (SoilAware.npkValues st') ->
        crops r = crops r')
    /\ (SoilAware.npkValues st = SoilAware.npkValues st' ->
        fertilizers r = fertilizers r').
Proof.
  intros Hvalid Hvalid'.
  rewrite (generateRecommendations_valid parseFloat st Hvalid),
    (generateRecommendations_valid parseFloat st' Hvalid').
  do 2 eexists. split; [reflexivity|]. split; [reflexivity|].
  cbn [crops fertilizers]. split.
  - now intros -> -> ->.
  - now intros ->.
Qed.

Lemma crops_and_fertilizers_independent_witness :
  SoilAware.passesValidation Runs.fiveCrops = true
  /\ SoilAware.passesValidation Runs.fiveCropsRich = true
  /\ SoilAware.npkValues Runs.fiveCrops
     <> SoilAware.npkValues Runs.fiveCropsRich
  /\ Scenario.cropsOf Runs.fiveCrops = Scenario.cropsOf Runs.fiveCropsRich.
Proof.
  split; [reflexivity|]. split; [reflexivity|]. split; [discriminate|].
  destruct (crops_and_fertilizers_independent Decimal.parseFloat
              Runs.fiveCrops Runs.fiveCropsRich eq_refl eq_refl)
    as [r [r' [Hr [Hr' [H _]]]]].
  unfold Scenario.cropsOf. rewrite Hr, Hr'.
  apply H; reflexivity.
Defined.

(** ** The forms around the two handlers *)

(** [x || 0] is never [NaN]. *)
Lemma or_zero_not_NaN (x : number) : JSValue.or_ x (lit 0) <> NaN.
Proof.
  unfold JSValue.or_, lit. destruct x; cbn; try discriminate.
  destruct (Qeq_bool q 0); discriminate.
Qed.

(** Away from [NaN], [<] is the negation of [>=]. *)
Lemma lt_negb_ge (x : number) (k : Z) :
  x <> NaN -> lt x (lit k) = negb (ge x (lit k)).
Proof. destruct x; cbn; try reflexivity. congruence. Qed.

(** X7. Whatever the browser hands to the three nutrient inputs, the value
    they store is never NaN: a text that [parseInt] reads as NaN or as zero
    stores 0, any other text stores what [parseInt] read.  Hence, for
    nutrients entered through the form, each fertilizer is recommended
    exactly when its nutrient is not at or above its threshold. *)
Theorem npk_inputs_never_store_NaN (parseFloat parseInt : string -> number)
    (vn vp vk : string) (st : SoilAware.State) :
  nitrogen (SoilAware.npkValues (CropForm.onNitrogenChange parseInt vn st))
  <> NaN
  /\ phosphorus
       (SoilAware.npkValues (CropForm.onPhosphorusChange parseInt vp st))
     <> NaN
  /\ potassium
       (SoilAware.npkValues (CropForm.onPotassiumChange parseInt vk st))
     <> NaN
  /\ (JSValue.falsy (parseInt vn) = true ->
      nitrogen (SoilAware.npkValues (CropForm.onNitrogenChange parseInt vn st))
      = lit 0)
  /\ (JSValue.falsy (parseInt vn) = false ->
      nitrogen (SoilAware.npkValues (CropForm.onNitrogenChange parseInt vn st))
      = parseInt vn)
  /\ (SoilAware.passesValidation
        (CropForm.onPotassiumChange parseInt vk
           (CropForm.onPhosphorusChange parseInt vp
              (CropForm.onNitrogenChange parseInt vn st))) = true ->
      exists r n p k,
        SoilAware.recommendations
          (fst (SoilAware.generateRecommendations parseFloat
                  (CropForm.onPotassiumChange parseInt vk
                     (CropForm.onPhosphorusChange parseInt vp
                        (CropForm.onNitrogenChange parseInt vn st)))))
        = Some r
        /\ SoilAware.npkValues
             (CropForm.onPotassiumChange parseInt vk
                (CropForm.onPhosphorusChange parseInt vp
                   (CropForm.onNitrogenChange parseInt vn st)))
           = mkNPK n p k
        /\ (In Entries.urea (fertilizers r) <-> ge n (lit 50) = false)
        /\ (In Entries.dap (fertilizers r) <-> ge p (lit 40) = false)
        /\ (In Entries.muriateOfPotash (fertilizers r)
            <-> ge k (lit 45) = false)).
Proof.
  split; [apply or_zero_not_NaN|]. split; [apply or_zero_not_NaN|].
  split; [apply or_zero_not_NaN|].
  split; [|split].
  - cbn. unfold JSValue.or_. now intros ->.
  - cbn. unfold JSValue.or_. now intros ->.
  - intros Hvalid.
    rewrite (generateRecommendations_valid parseFloat _ Hvalid).
    eexists. exists (JSValue.or_ (parseInt vn) (lit 0)),
      (JSValue.or_ (parseInt vp) (lit 0)), (JSValue.or_ (parseInt vk) (lit 0)).
    split; [reflexivity|]. split; [reflexivity|].
    cbn [fst fertilizers CropForm.onPotassiumChange CropForm.onPhosphorusChange
         CropForm.onNitrogenChange CropForm.setNpkValues SoilAware.npkValues
         nitrogen phosphorus potassium].
    rewrite fertilizerSuggestions_app.
    rewrite !lt_negb_ge by apply or_zero_not_NaN.
    destruct (ge (JSValue.or_ (parseInt vn) (lit 0)) (lit 50)),
      (ge (JSValue.or_ (parseInt vp) (lit 0)) (lit 40)),
      (ge (JSValue.or_ (parseInt vk) (lit 0)) (lit 45));
      cbn; repeat split; intros H; try reflexivity; try discriminate;
      try tauto;
      repeat (destruct H as [H|H]; try discriminate H); try contradiction.
Qed.

(** X8. Emptying the three nutrient inputs (each text read as NaN or zero)
    stores 0/0/0, and with a temperature and a soil type in place the
    handler then answers with the NPK error and stores nothing. *)
Theorem cleared_nutrients_rejected (parseFloat parseInt : string -> number)
    (vn vp vk : string) (st : SoilAware.State) :
  JSValue.falsy (parseInt vn) = true ->
  JSValue.falsy (parseInt vp) = true ->
  JSValue.falsy (parseInt vk) = true ->
  SoilAware.temperature st <> "" -> SoilAware.temperature st <> "0" ->
  SoilAware.soilType st <> "" ->
  SoilAware.generateRecommendations parseFloat
    (CropForm.onPotassiumChange parseInt vk
       (CropForm.onPhosphorusChange parseInt vp
          (CropForm.onNitrogenChange parseInt vn st)))
  = (SoilAware.mkState (SoilAware.temperature st) (SoilAware.soilType st)
       (mkNPK (lit 0) (lit 0) (lit 0)) (SoilAware.loading st)
       (SoilAware.recommendations st),
     [toast_error "Please enter NPK values"]).
Proof.
  intros Hn Hp Hk Ht Ht0 Hs.
  unfold CropForm.onPotassiumChange, CropForm.onPhosphorusChange,
    CropForm.onNitrogenChange, CropForm.setNpkValues, JSValue.or_.
  cbn [SoilAware.npkValues SoilAware.temperature SoilAware.soilType
       SoilAware.loading SoilAware.recommendations nitrogen phosphorus
       potassium].
  rewrite Hn, Hp, Hk.
  unfold SoilAware.generateRecommendations, not_.
  cbn [SoilAware.npkValues SoilAware.temperature SoilAware.soilType
       nitrogen phosphorus potassium].
  apply String.eqb_neq in Ht, Ht0, Hs. rewrite Ht, Ht0, Hs. reflexivity.
Qed.

Lemma cleared_nutrients_rejected_witness :
  JSValue.falsy (Ascii7.parseInt "") = true
  /\ SoilAware.generateRecommendations Decimal.parseFloat
       (CropForm.onPotassiumChange Ascii7.parseInt ""
          (CropForm.onPhosphorusChange Ascii7.parseInt "0"
             (CropForm.onNitrogenChange Ascii7.parseInt "" Scenario.warmBlack)))
     = (SoilAware.mkState "28" "black" (mkNPK (lit 0) (lit 0) (lit 0)) false
          None,
        [toast_error "Please enter NPK values"]).
Proof.
  split; [reflexivity|].
  exact (cleared_nutrients_rejected Decimal.parseFloat Ascii7.parseInt
           "" "0" "" Scenario.warmBlack eq_refl eq_refl eq_refl
           ltac:(discriminate) ltac:(discriminate) ltac:(discriminate)).
Defined.

(** X9. After the mount effect has loaded the mock conditions into the
    soil-aware form, the handler's answer depends on the soil selector
    alone: with no soil selected it reports the missing soil type and
    stores nothing (so pressing the button on a freshly mounted form always
    fails), and with any soil selected the input passes validation. *)
Theorem loaded_conditions_need_soil (parseFloat : string -> number)
    (st : SoilAware.State) :
  (SoilAware.soilType st = "" ->
   SoilAware.generateRecommendations parseFloat
     (fst (CropForm.fetchCurrentConditions st))
   = (fst (CropForm.fetchCurrentConditions st),
      [toast_error "Please select the soil type"]))
  /\ (SoilAware.soilType st <> "" ->
      SoilAware.passesValidation (fst (CropForm.fetchCurrentConditions st))
      = true)
  /\ SoilAware.generateRecommendations parseFloat
       (fst (CropForm.fetchCurrentConditions CropForm.initial))
     = (SoilAware.mkState "28" "" (mkNPK (lit 45) (lit 35) (lit 50)) false
          None,
        [toast_error "Please select the soil type"]).
Proof.
  split; [|split].
  - intros Hs. unfold SoilAware.generateRecommendations.
    cbn [fst CropForm.fetchCurrentConditions CropForm.setNpkValues
         CropForm.setTemperature SoilAware.temperature SoilAware.soilType
         SoilAware.npkValues].
    rewrite Hs. reflexivity.
  - intros Hs. unfold SoilAware.passesValidation.
    cbn [fst CropForm.fetchCurrentConditions CropForm.setNpkValues
         CropForm.setTemperature SoilAware.temperature SoilAware.soilType
         SoilAware.npkValues].
    apply String.eqb_neq in Hs. unfold not_ at 2. rewrite Hs. reflexivity.
  - reflexivity.
Qed.

(** X10. In the simple component the mock conditions loaded on mount are a
    complete valid input: whatever was in the form before, pressing the
    button right after mounting stores Rice 95, Wheat 88 and Cotton 82 and
    the fertilizers Urea, DAP and Vermicompost. *)
Theorem simple_loaded_conditions_suffice (parseFloat : string -> number)
    (st : Simple.State) :
  strict_equals (parseFloat "28") (lit 28) = true ->
  exists r,
    Simple.generateRecommendations parseFloat
      (fst (SimpleForm.fetchCurrentConditions st))
    = (Simple.mkState "28" (mkNPK (lit 45) (lit 35) (lit 50)) false (Some r),
       [toast_success "AI recommendations generated successfully!"])
    /\ crops r
       = [Entries.rice 95
            "Optimal temperature and high nitrogen content suitable for rice cultivation";
          Entries.wheat 88
            "Good temperature range with adequate phosphorus levels";
          Entries.cotton 82
            "High potassium content and warm temperature ideal for cotton"]
    /\ fertilizers r
       = [Entries.urea; Entries.dap; Entries.vermicompost].
Proof.
  intros H.
  rewrite simple_generateRecommendations_valid by reflexivity.
  eexists. split; [reflexivity|].
  cbn [crops fertilizers fst SimpleForm.fetchCurrentConditions
       SimpleForm.setNpkValues SimpleForm.setTemperature Simple.temperature
       Simple.npkValues potassium nitrogen phosphorus].
  change (JSValue.integerToString 28) with "28".
  unfold Simple.cropSuggestions.
  rewrite !(ge_equals_l _ _ _ H), !(le_equals_l _ _ _ H).
  split; reflexivity.
Qed.

Lemma simple_loaded_conditions_suffice_witness :
  strict_equals (Decimal.parseFloat "28") (lit 28) = true
  /\ exists r,
       Simple.recommendations
         (fst (Simple.generateRecommendations Decimal.parseFloat
                 (fst (SimpleForm.fetchCurrentConditions SimpleForm.initial))))
       = Some r
       /\ map CropSuggestion.name (crops r) = ["Rice"; "Wheat"; "Cotton"].
Proof.
  split; [reflexivity|].
  destruct (simple_loaded_conditions_suffice Decimal.parseFloat
              SimpleForm.initial eq_refl) as [r [Hr [Hc _]]].
  exists r. rewrite Hr. split; [reflexivity|]. rewrite Hc. reflexivity.
Defined.

(** ** The feedback form *)

(** X11. The feedback form checks the rating first and the experience text
    second, each failure giving one error toast and no change.  A
    successful submission thanks the user and puts every cell back to its
    initial value, so submitting again right away is answered with the
    missing-rating error. *)
Theorem feedback_submit_resets (trim : string -> string)
    (st : Feedback.State) :
  (strict_equals (Feedback.rating st) (lit 0) = true ->
   Feedback.handleSubmit trim st
   = (st, [toast_error "Please provide a rating"]))
  /\ (strict_equals (Feedback.rating st) (lit 0) = false ->
      trim (Feedback.overallExperience st) = "" ->
      Feedback.handleSubmit trim st
      = (st, [toast_error "Please describe your overall experience"]))
  /\ (strict_equals (Feedback.rating st) (lit 0) = false ->
      trim (Feedback.overallExperience st) <> "" ->
      Feedback.handleSubmit trim st
      = (Feedback.initial,
         [toast_success
            "Thank you for your valuable feedback! We'll use it to improve AgroSmart."])
      /\ Feedback.handleSubmit trim (fst (Feedback.handleSubmit trim st))
         = (Feedback.initial, [toast_error "Please provide a rating"])).
Proof.
  unfold Feedback.handleSubmit, not_. split; [|split].
  - now intros ->.
  - intros -> ->. reflexivity.
  - intros -> H. apply String.eqb_neq in H. rewrite H. split; reflexivity.
Qed.

(** X12. Clicking the i-th of the five stars, in any state of the form,
    shows that star's label (never the placeholder), fills exactly the
    first i stars, and a submission is then never answered with the
    missing-rating error. *)
Theorem star_click_sets_rating (trim : string -> string)
    (st : Feedback.State) (i : nat) :
  (i < 5)%nat ->
  Feedback.getRatingText
    (Feedback.rating (Feedback.handleStarClick (nth i Feedback.stars NaN) st))
  = nth i ChatEntries.ratingTexts ""
  /\ map (fun star =>
            Feedback.starClass star
              (Feedback.rating
                 (Feedback.handleStarClick (nth i Feedback.stars NaN) st)))
       Feedback.stars
     = repeat ChatEntries.filled (S i) ++ repeat ChatEntries.hollow (4 - i)
  /\ snd (Feedback.handleSubmit trim
            (Feedback.handleStarClick (nth i Feedback.stars NaN) st))
     <> [toast_error "Please provide a rating"].
Proof.
  intros Hi.
  assert (Hcases : (i = 0 \/ i = 1 \/ i = 2 \/ i = 3 \/ i = 4)%nat) by lia.
  destruct Hcases as [->|[->|[->|[->| ->]]]];
    (split; [reflexivity|]; split; [reflexivity|]);
    unfold Feedback.handleSubmit; cbn;
    destruct (not_ _); discriminate.
Qed.

Lemma star_click_sets_rating_witness :
  (2 < 5)%nat
  /\ Feedback.getRatingText
       (Feedback.rating
          (Feedback.handleStarClick (nth 2 Feedback.stars NaN)
             Feedback.initial))
     = "Good".
Proof.
  split; [lia|].
  exact (proj1 (star_click_sets_rating Ascii7.trim Feedback.initial 2
                  ltac:(lia))).
Defined.

(** ** The chat assistant *)

(** An in-range draw picks an element of a non-empty list. *)
Lemma pick_In (randomIndex : nat -> nat) (responses : list string) :
  ChatEntries.inRange randomIndex -> responses <> [] ->
  exists s, ChatBot.pick randomIndex responses = Some s /\ In s responses.
Proof.
  intros Hrange Hne. unfold ChatBot.pick.
  assert (Hlen : (0 < List.length responses)%nat).
  { destruct responses; [contradiction|cbn; lia]. }
  specialize (Hrange _ Hlen).
  destruct (nth_error responses (randomIndex (List.length responses)))
    as [s|] eqn:E.
  - exists s. split; [reflexivity|]. eapply nth_error_In; eassumption.
  - apply nth_error_None in E. lia.
Qed.



(** X14. Each of the four quick-question buttons is answered from the
    category it asks about: crops, pests, market and weather, in the order
    of the buttons.  ([toLowerCase] is only assumed to lower-case these
    four ASCII texts the usual way.) *)
Theorem quick_questions_routed (toLowerCase : string -> string)
    (randomIndex : nat -> nat) :
  ChatEntries.inRange randomIndex ->
  (forall q, In q ChatBot.quickQuestions ->
             toLowerCase q = Ascii7.toLowerCase q) ->
  Forall2
    (fun question category =>
       exists s,
         ChatBot.getAIResponse toLowerCase randomIndex question = Some s
         /\ In s category)
    ChatBot.quickQuestions
    [ChatBot.predefinedResponses.crops; ChatBot.predefinedResponses.pests;
     ChatBot.predefinedResponses.market; ChatBot.predefinedResponses.weather].
Proof.
  intros Hrange Hlower. unfold ChatBot.quickQuestions in *.
  repeat constructor; unfold ChatBot.getAIResponse;
    rewrite Hlower by (simpl; tauto);
    match goal with
    | |- context [Ascii7.toLowerCase ?q] =>
        let input := eval vm_compute in (Ascii7.toLowerCase q) in
        change (Ascii7.toLowerCase q) with input
    end;
    repeat match goal with
      | |- context [includes ?a ?b] =>
          let v := eval vm_compute in (includes a b) in
          change (includes a b) with v
      end;
    cbn [orb];
    apply pick_In; try exact Hrange; discriminate.
Qed.

Lemma quick_questions_routed_witness :
  ChatEntries.inRange Nat.pred
  /\ Forall2
       (fun question category =>
          exists s,
            ChatBot.getAIResponse Ascii7.toLowerCase Nat.pred question = Some s
            /\ In s category)
       ChatBot.quickQuestions
       [ChatBot.predefinedResponses.crops; ChatBot.predefinedResponses.pests;
        ChatBot.predefinedResponses.market;
        ChatBot.predefinedResponses.weather].
Proof.
  assert (Hrange : ChatEntries.inRange Nat.pred) by (intros n Hn; lia).
  split; [exact Hrange|].
  exact (quick_questions_routed Ascii7.toLowerCase Nat.pred Hrange
           (fun q _ => eq_refl)).
Defined.

(** X15. One exchange: sending a text that is not blank and letting its
    reply timer fire appends exactly two messages to the conversation, the
    user's with the trimmed text and then the assistant's with the answer
    to the text as it was sent (untrimmed); the input is emptied and the
    typing indicator is off again.  A blank text changes nothing at all. *)
Theorem chat_exchange (toLowerCase trim : string -> string)
    (randomIndex : nat -> nat) (now date now' date' : Z) (text : string)
    (st : ChatBot.State) :
  (trim text = "" -> ChatBot.sendMessage trim now date text st = st)
  /\ (trim text <> "" ->
      ChatBot.replyCallback toLowerCase randomIndex now' date' text
        (ChatBot.sendMessage trim now date text st)
      = ChatBot.mkState
          (ChatBot.messages st
           ++ [ChatBot.mkMessage (JSValue.integerToString now)
                 (Some (trim text)) ChatBot.user date;
               ChatBot.mkMessage (JSValue.integerToString (now' + 1))
                 (ChatBot.getAIResponse toLowerCase randomIndex text)
                 ChatBot.bot date'])
          "" false (ChatBot.isListening st)).
Proof.
  unfold ChatBot.sendMessage, not_. split.
  - now intros ->.
  - intros H. apply String.eqb_neq in H. rewrite H.
    unfold ChatBot.replyCallback, ChatBot.setIsTyping, ChatBot.setInputText,
      ChatBot.setMessages.
    cbn [ChatBot.messages ChatBot.inputText ChatBot.isTyping
         ChatBot.isListening].
    now rewrite <- app_assoc.
Qed.

(** One step of the chat only appends to the conversation, and a user
    message it appends has a non-empty text. *)
Lemma chat_step_appends (toLowerCase trim : string -> string)
    (st : ChatBot.State) (e : ChatBot.Event) :
  exists added,
    ChatBot.messages (ChatBot.step toLowerCase trim st e)
    = ChatBot.messages st ++ added
    /\ (List.length added <= 1)%nat
    /\ Forall
         (fun m =>
            ChatBot.sender m = ChatBot.user ->
            exists t, ChatBot.text m = Some t /\ t <> "")
         added.
Proof.
  destruct e as [value|now date text|now date text randomIndex];
    cbn [ChatBot.step].
  - exists []. cbn. rewrite app_nil_r. repeat split; [lia|constructor].
  - unfold ChatBot.sendMessage, not_.
    destruct (String.eqb_spec (trim text) "") as [E|E].
    + exists []. rewrite app_nil_r. repeat split; [cbn; lia|constructor].
    + eexists [_]. cbn. repeat split; [lia|].
      constructor; [|constructor]. intros _. eexists. split; [reflexivity|].
      exact E.
  - eexists [_]. cbn. repeat split; [lia|].
    constructor; [|constructor]. cbn. discriminate.
Qed.

Lemma chat_run_appends (toLowerCase trim : string -> string)
    (events : list ChatBot.Event) (st : ChatBot.State) :
  exists added,
    ChatBot.messages (ChatBot.run toLowerCase trim st events)
    = ChatBot.messages st ++ added
    /\ (List.length added <= List.length events)%nat
    /\ Forall
         (fun m =>
            ChatBot.sender m = ChatBot.user ->
            exists t, ChatBot.text m = Some t /\ t <> "")
         added.
Proof.
  unfold ChatBot.run. revert st.
  induction events as [|e events IH]; intros st; cbn [fold_left].
  - exists []. rewrite app_nil_r. repeat split; [cbn; lia|constructor].
  - destruct (chat_step_appends toLowerCase trim st e)
      as [first [Hfirst [Hlen Hok]]].
    destruct (IH (ChatBot.step toLowerCase trim st e))
      as [rest [Hrest [Hlen' Hok']]].
    exists (first ++ rest). rewrite Hrest, Hfirst, app_assoc.
    repeat split.
    + rewrite length_app. cbn [List.length]. lia.
    + apply Forall_app. now split.
Qed.

(** X16. However edits, sends and reply timers interleave, the conversation
    only grows: the messages already shown stay where they are, unchanged,
    at most one message is added per event, and no user message with an
    empty text is ever added.  In particular the welcome message written on
    mount stays first. *)
Theorem conversation_only_grows (toLowerCase trim : string -> string)
    (events : list ChatBot.Event) (st : ChatBot.State) :
  (exists added,
     ChatBot.messages (ChatBot.run toLowerCase trim st events)
     = ChatBot.messages st ++ added
     /\ (List.length added <= List.length events)%nat
     /\ Forall
          (fun m =>
             ChatBot.sender m = ChatBot.user ->
             exists t, ChatBot.text m = Some t /\ t <> "")
          added)
  /\ (forall date : Z,
        map ChatBot.id
          (firstn 1
             (ChatBot.messages
                (ChatBot.run toLowerCase trim (ChatBot.welcome date st)
                   events)))
        = ["welcome"]).
Proof.
  split; [apply chat_run_appends|].
  intros date.
  destruct (chat_run_appends toLowerCase trim events (ChatBot.welcome date st))
    as [added [H _]].
  rewrite H. reflexivity.
Qed.

(** ** Pest detection *)

(** X17. Without an image the Analyze handler shows one error and changes
    nothing.  With an image and a random index in range it stores one of
    the two mock results, stops the spinner, and shows the info toast
    followed by a success toast that quotes the stored result's own
    confidence; the severity of a stored result always has a colour and an
    icon of its own, never the grey fallback or the bug icon. *)
Theorem analysis_outcome (randomIndex : nat -> nat)
    (st : PestDetection.State) :
  ChatEntries.inRange randomIndex ->
  (PestDetection.noImage st = true ->
   PestDetection.analyzeImage randomIndex st
   = (st, [PestDetection.toast_error "Please select an image first"]))
  /\ (PestDetection.noImage st = false ->
      exists r,
        In r PestDetection.mockResults
        /\ PestDetection.analyzeImage randomIndex st
           = (PestDetection.mkState (PestDetection.selectedImage st) false
                (Some r),
              [PestDetection.toast_info "Analyzing image with AI...";
               PestDetection.toast_success
                 ("Disease detected with "
                  ++ JSValue.integerToString (PestDetection.confidence r)
                  ++ "% confidence")%string])
        /\ In (JSValue.integerToString (PestDetection.confidence r))
              ["92"; "88"]
        /\ PestDetection.getSeverityColor (PestDetection.severity r)
           <> "text-gray-600"
        /\ PestDetection.getSeverityIcon (PestDetection.severity r)
           <> PestDetection.Bug).
Proof.
  intros Hrange. unfold PestDetection.analyzeImage. split.
  - now intros ->.
  - intros ->. unfold PestDetection.timerCallback.
    assert (Hlt : (randomIndex (List.length PestDetection.mockResults) < 2)%nat)
      by (apply (Hrange 2%nat); lia).
    destruct (randomIndex (List.length PestDetection.mockResults))
      as [|[|n]]; [| |lia];
      eexists; (split; [|split; [reflexivity|]]);
      cbn; try tauto; repeat split; try tauto; discriminate.
Qed.

Lemma analysis_outcome_witness :
  ChatEntries.inRange Nat.pred
  /\ snd (PestDetection.analyzeImage Nat.pred
            (PestDetection.handleImageUpload (Some "data:image/png;base64,AA")
               PestDetection.initial))
     = [PestDetection.toast_info "Analyzing image with AI...";
        PestDetection.toast_success "Disease detected with 88% confidence"].
Proof.
  assert (Hrange : ChatEntries.inRange Nat.pred) by (intros n Hn; lia).
  split; [exact Hrange|].
  destruct (proj2 (analysis_outcome Nat.pred
                     (PestDetection.handleImageUpload
                        (Some "data:image/png;base64,AA")
                        PestDetection.initial) Hrange) eq_refl)
    as [r [_ [Hrun _]]].
  rewrite Hrun. cbn [snd].
  vm_compute in Hrun. injection Hrun as <-. reflexivity.
Defined.

(** ** Sign-in and the screen router *)

Lemma removeNonDigits_digits (s : Text.t) :
  Forall (fun c => Text.isDigit c = true) (Text.removeNonDigits s).
Proof.
  unfold Text.removeNonDigits. apply Forall_forall. intros c Hc.
  now apply filter_In in Hc.
Qed.

Lemma slice0_digits (n : nat) (s : Text.t) :
  Forall (fun c => Text.isDigit c = true) s ->
  Forall (fun c => Text.isDigit c = true) (Text.slice0 n s).
Proof.
  unfold Text.slice0. rewrite !Forall_forall. intros H c Hc.
  apply H. rewrite <- (firstn_skipn n s). apply in_or_app. now left.
Qed.

Lemma digits_removeNonDigits (s : Text.t) :
  Forall (fun c => Text.isDigit c = true) s -> Text.removeNonDigits s = s.
Proof.
  unfold Text.removeNonDigits.
  induction 1 as [|c s Hc Hs IH]; cbn; [reflexivity|].
  now rewrite Hc, IH.
Qed.

(** X18. The phone inputs store the first ten ASCII digits of whatever is
    typed or pasted and drop everything else: the stored text consists of
    digits only, is at most ten long, is exactly ten long when the input
    holds at least ten digits, and feeding the stored text back in changes
    nothing.  The login and the registration input behave alike. *)
Theorem phone_input_keeps_ten_digits (value : Text.t)
    (st : AuthScreen.State) :
  AuthScreen.loginPhone (AuthScreen.onLoginPhoneChange value st)
  = firstn 10 (filter Text.isDigit value)
  /\ AuthScreen.regPhone (AuthScreen.onRegPhoneChange value st)
     = AuthScreen.loginPhone (AuthScreen.onLoginPhoneChange value st)
  /\ Forall (fun c => Text.isDigit c = true)
       (AuthScreen.loginPhone (AuthScreen.onLoginPhoneChange value st))
  /\ (List.length
        (AuthScreen.loginPhone (AuthScreen.onLoginPhoneChange value st))
      <= 10)%nat
  /\ (List.length
        (AuthScreen.loginPhone (AuthScreen.onLoginPhoneChange value st))
      = 10%nat
      <-> (10 <= List.length (filter Text.isDigit value))%nat)
  /\ AuthScreen.onLoginPhoneChange
       (AuthScreen.loginPhone (AuthScreen.onLoginPhoneChange value st))
       (AuthScreen.onLoginPhoneChange value st)
     = AuthScreen.onLoginPhoneChange value st.
Proof.
  cbn [AuthScreen.loginPhone AuthScreen.regPhone AuthScreen.onLoginPhoneChange
       AuthScreen.onRegPhoneChange].
  unfold Text.slice0 at 1 2 3 4 5, Text.removeNonDigits at 1 2 3 4 5.
  split; [reflexivity|]. split; [reflexivity|].
  split; [apply (slice0_digits 10), removeNonDigits_digits|].
  split; [apply firstn_le_length|].
  split; [rewrite length_firstn; split; intros H; [|apply Nat.min_l; exact H]; rewrite <- H; apply Nat.le_min_r|].
  unfold AuthScreen.onLoginPhoneChange.
  cbn [AuthScreen.language AuthScreen.isLogin
       AuthScreen.locationPermissionGranted AuthScreen.loginPhone
       AuthScreen.loginPassword AuthScreen.regPhone AuthScreen.regPassword
       AuthScreen.confirmPassword AuthScreen.securityQuestion].
  f_equal.
  rewrite (digits_removeNonDigits (Text.slice0 10 (Text.removeNonDigits value)))
    by apply slice0_digits, removeNonDigits_digits.
  unfold Text.slice0. rewrite firstn_firstn. reflexivity.
Qed.

Lemma Text_eqb_eq (a b : Text.t) : Text.eqb a b = true <-> a = b.
Proof.
  revert b. induction a as [|x a IH]; intros [|y b]; cbn;
    try (split; [discriminate|discriminate]); [tauto|].
  rewrite andb_true_iff, N.eqb_eq, IH. split.
  - now intros [-> ->].
  - intros [= -> ->]. now split.
Qed.

(** X19. Login checks the phone number first and the password second, and
    checks nothing else: a phone text that is not exactly ten units long is
    rejected with the phone error whatever the password is; with a
    ten-unit phone text an empty password is rejected; and any non-empty
    password is accepted, the user handed to [onLogin] carrying the phone
    text, the chosen language, and "GPS Auto-detected" exactly when the
    location permission was granted. *)
Theorem login_validation (st : AuthScreen.State) :
  (List.length (AuthScreen.loginPhone st) <> 10%nat ->
   AuthScreen.handleLogin st
   = ([toast_error "Please enter a valid 10-digit phone number"], None))
  /\ (List.length (AuthScreen.loginPhone st) = 10%nat ->
      AuthScreen.loginPassword st = [] ->
      AuthScreen.handleLogin st
      = ([toast_error "Please enter your password"], None))
  /\ (List.length (AuthScreen.loginPhone st) = 10%nat ->
      AuthScreen.loginPassword st <> [] ->
      AuthScreen.handleLogin st
      = ([toast_success
            ("Welcome back! Logging in with "
             ++ AuthScreen.languageName (AuthScreen.language st))%string],
         Some (mkUser (AuthScreen.loginPhone st)
                 (AuthScreen.locationText st) (AuthScreen.language st))))
  /\ (AuthScreen.locationText st = "GPS Auto-detected"
      <-> AuthScreen.locationPermissionGranted st = Some true).
Proof.
  unfold AuthScreen.handleLogin. split; [|split; [|split]].
  - intros H. apply Nat.eqb_neq in H. rewrite H.
    now rewrite orb_true_r.
  - intros H ->. rewrite H.
    destruct (AuthScreen.loginPhone st); [discriminate H|]. reflexivity.
  - intros H Hp. rewrite H.
    destruct (AuthScreen.loginPhone st); [discriminate H|].
    destruct (AuthScreen.loginPassword st); [contradiction|]. reflexivity.
  - unfold AuthScreen.locationText.
    destruct (AuthScreen.locationPermissionGranted st) as [[|]|];
      split; intros H; try reflexivity; discriminate H.
Qed.

(** X20. Registration runs four checks in this order and reports the first
    that fails, without calling [onLogin]: the phone text must be ten units
    long, the password at least six, the confirmation equal to the
    password, and the security answer non-empty.  When all four hold the
    account is accepted and the user carries the registration phone. *)
Theorem register_validation (st : AuthScreen.State) :
  (List.length (AuthScreen.regPhone st) <> 10%nat ->
   AuthScreen.handleRegister st
   = ([toast_error "Please enter a valid 10-digit phone number"], None))
  /\ (List.length (AuthScreen.regPhone st) = 10%nat ->
      (List.length (AuthScreen.regPassword st) < 6)%nat ->
      AuthScreen.handleRegister st
      = ([toast_error "Password must be at least 6 characters"], None))
  /\ (List.length (AuthScreen.regPhone st) = 10%nat ->
      (6 <= List.length (AuthScreen.regPassword st))%nat ->
      AuthScreen.regPassword st <> AuthScreen.confirmPassword st ->
      AuthScreen.handleRegister st
      = ([toast_error "Passwords do not match"], None))
  /\ (List.length (AuthScreen.regPhone st) = 10%nat ->
      (6 <= List.length (AuthScreen.regPassword st))%nat ->
      AuthScreen.regPassword st = AuthScreen.confirmPassword st ->
      AuthScreen.securityQuestion st = [] ->
      AuthScreen.handleRegister st
      = ([toast_error "Please answer the security question"], None))
  /\ (List.length (AuthScreen.regPhone st) = 10%nat ->
      (6 <= List.length (AuthScreen.regPassword st))%nat ->
      AuthScreen.regPassword st = AuthScreen.confirmPassword st ->
      AuthScreen.securityQuestion st <> [] ->
      AuthScreen.handleRegister st
      = ([toast_success
            ("Account created successfully! Welcome to AgroSmart in "
             ++ AuthScreen.languageName (AuthScreen.language st))%string],
         Some (mkUser (AuthScreen.regPhone st)
                 (AuthScreen.locationText st) (AuthScreen.language st)))).
Proof.
  unfold AuthScreen.handleRegister.
  assert (Hphone : List.length (AuthScreen.regPhone st) = 10%nat ->
            Text.not_ (AuthScreen.regPhone st)
            || negb (List.length (AuthScreen.regPhone st) =? 10)%nat = false).
  { intros H. rewrite H.
    destruct (AuthScreen.regPhone st); [discriminate H|]. reflexivity. }
  assert (Hpass : (6 <= List.length (AuthScreen.regPassword st))%nat ->
            Text.not_ (AuthScreen.regPassword st)
            || (List.length (AuthScreen.regPassword st) <? 6)%nat = false).
  { intros H. apply Nat.ltb_ge in H. rewrite H.
    destruct (AuthScreen.regPassword st); [discriminate H|]. reflexivity. }
  split; [|split; [|split; [|split]]].
  - intros H. apply Nat.eqb_neq in H. rewrite H. now rewrite orb_true_r.
  - intros H Hlen. rewrite (Hphone H). apply Nat.ltb_lt in Hlen.
    rewrite Hlen. now rewrite orb_true_r.
  - intros H Hlen Hneq. rewrite (Hphone H), (Hpass Hlen).
    destruct (Text.eqb (AuthScreen.regPassword st)
                (AuthScreen.confirmPassword st)) eqn:E; [|reflexivity].
    apply Text_eqb_eq in E. contradiction.
  - intros H Hlen Heq ->. rewrite (Hphone H), (Hpass Hlen).
    apply Text_eqb_eq in Heq. rewrite Heq. reflexivity.
  - intros H Hlen Heq Hsec. rewrite (Hphone H), (Hpass Hlen).
    apply Text_eqb_eq in Heq. rewrite Heq.
    destruct (AuthScreen.securityQuestion st); [contradiction|]. reflexivity.
Qed.

(** A user comes out of the login handler only with a ten-unit phone. *)
Lemma handleLogin_user (st : AuthScreen.State) (toasts : list Toast)
    (u : User) :
  AuthScreen.handleLogin st = (toasts, Some u) ->
  u = mkUser (AuthScreen.loginPhone st) (AuthScreen.locationText st)
        (AuthScreen.language st)
  /\ List.length (AuthScreen.loginPhone st) = 10%nat.
Proof.
  unfold AuthScreen.handleLogin.
  destruct (Text.not_ (AuthScreen.loginPhone st)
            || negb (List.length (AuthScreen.loginPhone st) =? 10)%nat)
    eqn:E; [discriminate|].
  destruct (Text.not_ (AuthScreen.loginPassword st)); [discriminate|].
  intros [= _ <-]. split; [reflexivity|].
  apply orb_false_iff in E as [_ E]. apply negb_false_iff in E.
  now apply Nat.eqb_eq.
Qed.

Lemma handleRegister_user (st : AuthScreen.State) (toasts : list Toast)
    (u : User) :
  AuthScreen.handleRegister st = (toasts, Some u) ->
  u = mkUser (AuthScreen.regPhone st) (AuthScreen.locationText st)
        (AuthScreen.language st)
  /\ List.length (AuthScreen.regPhone st) = 10%nat.
Proof.
  unfold AuthScreen.handleRegister.
  destruct (Text.not_ (AuthScreen.regPhone st)
            || negb (List.length (AuthScreen.regPhone st) =? 10)%nat)
    eqn:E; [discriminate|].
  destruct (Text.not_ (AuthScreen.regPassword st)
            || (List.length (AuthScreen.regPassword st) <? 6)%nat);
    [discriminate|].
  destruct (negb (Text.eqb (AuthScreen.regPassword st)
                    (AuthScreen.confirmPassword st))); [discriminate|].
  destruct (Text.not_ (AuthScreen.securityQuestion st)); [discriminate|].
  intros [= _ <-]. split; [reflexivity|].
  apply orb_false_iff in E as [_ E]. apply negb_false_iff in E.
  now apply Nat.eqb_eq.
Qed.

Lemma locationText_cases (st : AuthScreen.State) :
  AuthScreen.locationText st = "GPS Auto-detected"
  \/ AuthScreen.locationText st = "Location not available".
Proof.
  unfold AuthScreen.locationText.
  destruct (AuthScreen.locationPermissionGranted st) as [[|]|]; tauto.
Qed.

(** A form edit keeps the phone cells digits-only. *)
Lemma editAuth_consistent (f : AuthScreen.State -> AuthScreen.State)
    (sys : App.System) :
  (forall form, RouterFacts.digitsOnly form -> RouterFacts.digitsOnly (f form)) ->
  RouterFacts.consistent sys ->
  RouterFacts.consistent (fst (App.editAuth f sys)).
Proof.
  intros Hf [Hd Hs]. unfold App.editAuth.
  destruct (App.view (App.app sys)); cbn [fst]; try (split; assumption).
  split; [now apply Hf|exact Hs].
Qed.

Lemma submitAuth_consistent
    (handler : AuthScreen.State -> list Toast * option User)
    (phone : AuthScreen.State -> Text.t) (sys : App.System) :
  (forall form toasts u,
     handler form = (toasts, Some u) ->
     u = mkUser (phone form) (AuthScreen.locationText form)
           (AuthScreen.language form)
     /\ List.length (phone form) = 10%nat) ->
  (forall form, RouterFacts.digitsOnly form ->
                Forall (fun c => Text.isDigit c = true) (phone form)) ->
  RouterFacts.consistent sys ->
  RouterFacts.consistent (fst (App.submitAuth handler sys)).
Proof.
  intros Hhandler Hphone [Hd Hs]. unfold App.submitAuth.
  destruct (App.view (App.app sys)); cbn [fst]; try (split; assumption).
  destruct (handler (App.authScreen sys)) as [toasts [u|]] eqn:E;
    cbn [fst]; [|split; assumption].
  destruct (Hhandler _ _ _ E) as [-> Hlen].
  split; [exact Hd|]. right. split; [discriminate|].
  eexists. split; [reflexivity|].
  split; [split; [exact Hlen|now apply Hphone]|apply locationText_cases].
Qed.

(** Every step keeps the router consistent. *)
Lemma step_consistent (sys : App.System) (e : App.Event) :
  RouterFacts.consistent sys -> RouterFacts.consistent (fst (App.step sys e)).
Proof.
  intros Hsys.
  destruct e; cbn [App.step];
    try (apply editAuth_consistent; [|exact Hsys];
         intros form [H1 H2]; split; cbn; try assumption;
         apply (slice0_digits 10), removeNonDigits_digits).
  - apply (submitAuth_consistent _ AuthScreen.loginPhone);
      [apply handleLogin_user|now intros form [H _]|exact Hsys].
  - apply (submitAuth_consistent _ AuthScreen.regPhone);
      [apply handleRegister_user|now intros form [_ H]|exact Hsys].
  - destruct Hsys as [[H1 H2] Hs].
    destruct answer; cbn; (split; [split; assumption|exact Hs]).
  - destruct Hsys as [Hd Hs]. cbn. split; [exact Hd|exact Hs].
  - unfold App.view.
    destruct (App.currentScreen (App.app sys)) eqn:Escreen;
      cbn [fst]; try exact Hsys.
    destruct (App.user (App.app sys)) as [u|] eqn:Euser;
      cbn [fst]; [|exact Hsys].
    destruct (existsb (App.Screen_eqb target) HomePage.navigationTargets)
      eqn:Etarget; cbn [fst]; [|exact Hsys].
    destruct Hsys as [Hd Hs]. split; [exact Hd|]. right. cbn. split.
    + intros ->. discriminate Etarget.
    + destruct Hs as [[_ Hnone]|[_ Hu]]; [congruence|]. exact Hu.
  - unfold App.view.
    destruct (App.currentScreen (App.app sys)) eqn:Escreen;
      cbn [fst]; try exact Hsys.
    destruct (App.user (App.app sys)) as [u|] eqn:Euser;
      cbn [fst]; [|exact Hsys].
    destruct Hsys as [Hd Hs]. split; [exact Hd|]. cbn.
    rewrite Escreen, Euser in *. exact Hs.
  - unfold App.view.
    destruct (App.currentScreen (App.app sys)) eqn:Escreen;
      cbn [fst]; try exact Hsys;
      try (destruct (App.user (App.app sys)); cbn [fst]; exact Hsys);
      destruct Hsys as [Hd Hs]; (split; [exact Hd|]); right; cbn;
      (split; [discriminate|]);
      rewrite Escreen in Hs;
      destruct Hs as [[Hauth _]|[_ Hu]]; try discriminate; exact Hu.
Qed.

Lemma run_consistent (events : list App.Event) (sys : App.System) :
  RouterFacts.consistent sys ->
  RouterFacts.consistent (fst (App.run sys events)).
Proof.
  revert sys. induction events as [|e events IH]; intros sys Hsys;
    cbn [App.run]; [exact Hsys|].
  pose proof (step_consistent sys e Hsys) as Hstep.
  destruct (App.step sys e) as [sys' toasts].
  specialize (IH sys' Hstep).
  destruct (App.run sys' events) as [sys'' later]. exact IH.
Qed.

(** X21. Whatever the user and the browser do, starting from the sign-in
    screen: a screen other than sign-in is shown exactly when a user is
    signed in; that user's phone number is ten ASCII digits and the
    location text is one of the two the sign-in form writes; the router
    never shows a blank page; and every feature screen is handed a user,
    so the unchecked [user!] of the router never yields null. *)
Theorem router_invariant (events : list App.Event) :
  RouterFacts.consistent (fst (App.run App.start events))
  /\ (App.currentScreen (App.app (fst (App.run App.start events))) = auth
      <-> App.user (App.app (fst (App.run App.start events))) = None)
  /\ (forall u,
        App.user (App.app (fst (App.run App.start events))) = Some u ->
        RouterFacts.signedIn u)
  /\ App.view (App.app (fst (App.run App.start events))) <> App.Blank
  /\ (forall s u,
        App.view (App.app (fst (App.run App.start events)))
        = App.FeatureView s u ->
        exists v, u = Some v /\ RouterFacts.signedIn v).
Proof.
  assert (Hstart : RouterFacts.consistent App.start).
  { split; [split; constructor|]. left. split; reflexivity. }
  pose proof (run_consistent events App.start Hstart) as H.
  split; [exact H|].
  destruct H as [_ H].
  set (st := App.app (fst (App.run App.start events))) in *.
  split; [|split; [|split]].
  - destruct H as [[H1 H2]|[H1 [u [H2 _]]]]; split; intros E;
      try assumption; try contradiction; congruence.
  - intros u Hu. destruct H as [[_ H]|[_ [v [Hv Hs]]]]; [congruence|].
    rewrite Hu in Hv. injection Hv as <-. exact Hs.
  - unfold App.view.
    destruct H as [[H _]|[_ [v [Hv _]]]].
    + rewrite H. discriminate.
    + rewrite Hv. destruct (App.currentScreen st); discriminate.
  - intros s u. unfold App.view.
    destruct H as [[H _]|[_ [v [Hv Hs]]]].
    + rewrite H. discriminate.
    + rewrite Hv.
      destruct (App.currentScreen st); intros E; try discriminate E;
        injection E as <- <-; exists v; (split; [reflexivity|exact Hs]).
Qed.

(** Off the sign-in screen no step leads back to it or touches the user. *)
Lemma step_stays_signed_in (sys : App.System) (e : App.Event) :
  App.currentScreen (App.app sys) <> auth ->
  App.currentScreen (App.app (fst (App.step sys e))) <> auth
  /\ App.user (App.app (fst (App.step sys e))) = App.user (App.app sys).
Proof.
  intros Hscreen.
  assert (Hview : App.view (App.app sys) <> App.AuthView).
  { unfold App.view.
    destruct (App.currentScreen (App.app sys)); try discriminate;
      [contradiction|destruct (App.user (App.app sys)); discriminate]. }
  destruct e; cbn [App.step]; unfold App.editAuth, App.submitAuth;
    try (destruct (App.view (App.app sys)) eqn:E; try contradiction;
         cbn [fst]; now split).
  - destruct answer; cbn; now split.
  - destruct (App.view (App.app sys)); cbn [fst]; try now split.
    destruct (existsb (App.Screen_eqb target) HomePage.navigationTargets)
      eqn:Etarget; cbn [fst]; [|now split].
    cbn. split; [|reflexivity]. intros ->. discriminate Etarget.
Qed.

(** X22. There is no way back to the sign-in screen and no second sign-in:
    once any other screen is shown, every later sequence of events leaves
    the sign-in screen unshown and the signed-in user unchanged. *)
Theorem signed_in_stays (events : list App.Event) (sys : App.System) :
  App.currentScreen (App.app sys) <> auth ->
  App.currentScreen (App.app (fst (App.run sys events))) <> auth
  /\ App.user (App.app (fst (App.run sys events))) = App.user (App.app sys).
Proof.
  revert sys. induction events as [|e events IH]; intros sys Hscreen;
    cbn [App.run]; [now split|].
  destruct (step_stays_signed_in sys e Hscreen) as [Hstep Huser].
  destruct (App.step sys e) as [sys' toasts]. cbn [fst] in Hstep, Huser.
  destruct (IH sys' Hstep) as [H1 H2].
  destruct (App.run sys' events) as [sys'' later]. cbn [fst] in *.
  split; [exact H1|congruence].
Qed.

(** The sample session signs in with the first ten digits typed; the later
    presses on Navigate-to-sign-in and Login are lost. *)
Lemma signed_in_stays_witness :
  App.currentScreen
    (App.app (fst (App.run App.start (firstn 4 RouterFacts.sampleSession))))
  <> auth
  /\ App.user
       (App.app (fst (App.run App.start (firstn 4 RouterFacts.sampleSession))))
     = Some (mkUser (Text.ofString "9876543210") "GPS Auto-detected" English)
  /\ App.currentScreen
       (App.app
          (fst (App.run
                  (fst (App.run App.start
                          (firstn 4 RouterFacts.sampleSession)))
                  (skipn 4 RouterFacts.sampleSession))))
     <> auth
  /\ App.user
       (App.app
          (fst (App.run
                  (fst (App.run App.start
                          (firstn 4 RouterFacts.sampleSession)))
                  (skipn 4 RouterFacts.sampleSession))))
     = App.user
         (App.app
            (fst (App.run App.start (firstn 4 RouterFacts.sampleSession)))).
Proof.
  split; [discriminate|]. split; [reflexivity|].
  apply (signed_in_stays (skipn 4 RouterFacts.sampleSession)
           (fst (App.run App.start (firstn 4 RouterFacts.sampleSession)))).
  discriminate.
Defined.

(** ** Edge cases of the soil-aware handler *)

Lemma lt_ge_false (x : number) (a b : Z) :
  (a <= b)%Z -> lt x (lit a) = true -> ge x (lit b) = false.
Proof.
  intros Hab. destruct x as [| | |q]; simpl; try discriminate;
    try reflexivity.
  intros H. apply negb_true_iff in H.
  destruct (Qle_bool (inject_Z b) q) eqn:E; [|reflexivity].
  apply Qle_bool_iff in E.
  assert (Hq : (inject_Z a <= q)%Q).
  { eapply Qle_trans; [|exact E]. now rewrite <- Zle_Qle. }
  apply Qle_bool_iff in Hq. congruence.
Qed.

Lemma gt_ge_true (x : number) (a b : Z) :
  (b <= a)%Z -> gt x (lit a) = true -> ge x (lit b) = true.
Proof.
  intros Hab. destruct x as [| | |q]; simpl; try discriminate;
    try reflexivity.
  intros H. apply negb_true_iff in H. apply Qle_bool_iff.
  destruct (Qlt_le_dec (inject_Z a) q) as [Hlt|Hle].
  - eapply Qle_trans; [|apply Qlt_le_weak; exact Hlt]. now rewrite <- Zle_Qle.
  - apply Qle_bool_iff in Hle. congruence.
Qed.

(** Between 15 and 35 the Potato range or the Rice range holds. *)
Lemma potato_or_rice (x : number) :
  ge x (lit 15) = true -> le x (lit 35) = true ->
  ge x (lit 15) && le x (lit 25) = true
  \/ ge x (lit 25) && le x (lit 35) = true.
Proof.
  intros H15 H35. rewrite H15, H35, andb_true_r. cbn [andb].
  destruct x as [| | |q]; simpl in *; try discriminate.
  destruct (Qlt_le_dec (inject_Z 25) q) as [Hlt|Hle].
  - right. apply Qle_bool_iff. now apply Qlt_le_weak.
  - left. now apply Qle_bool_iff.
Qed.

(** X23. The handler accepts any non-empty soil text, not only the five
    the selector offers.  With a text outside the five, every stored crop
    is one of the four general crops at its base score with its generic
    reason, Groundnut and Millets never appear, and the list is in rule
    order with strictly decreasing scores. *)
Theorem unknown_soil_uses_base_scores (parseFloat : string -> number)
    (st : SoilAware.State) :
  SoilAware.passesValidation st = true ->
  ~ In (SoilAware.soilType st) Edges.soilOptions ->
  exists r,
    SoilAware.recommendations
      (fst (SoilAware.generateRecommendations parseFloat st)) = Some r
    /\ (forall c, In c (crops r) -> In c Edges.baseSuggestions)
    /\ map CropSuggestion.name (crops r)
       = map CropSuggestion.name
           (Simple.cropSuggestions (parseFloat (SoilAware.temperature st))
              (potassium (SoilAware.npkValues st)))
    /\ (forall (i j : nat) (a b : CropSuggestion.t),
          (i < j)%nat ->
          nth_error (crops r) i = Some a ->
          nth_error (crops r) j = Some b ->
          CropSuggestion.suitability a > CropSuggestion.suitability b).
Proof.
  intros Hvalid Hsoil.
  rewrite (generateRecommendations_valid parseFloat st Hvalid).
  eexists. split; [reflexivity|]. cbn [fst crops].
  assert (Hne : forall soil, In soil Edges.soilOptions ->
                  (SoilAware.soilType st =? soil)%string = false).
  { intros soil Hin. apply String.eqb_neq. intros E. apply Hsoil.
    now rewrite E. }
  unfold SoilAware.cropSuggestions, Simple.cropSuggestions.
  rewrite (Hne "loamy"), (Hne "clayey"), (Hne "black"), (Hne "sandy"),
    (Hne "red") by (simpl; tauto).
  cbn [orb andb].
  generalize (ge (parseFloat (SoilAware.temperature st)) (lit 25)
              && le (parseFloat (SoilAware.temperature st)) (lit 35)),
    (ge (parseFloat (SoilAware.temperature st)) (lit 20)
     && le (parseFloat (SoilAware.temperature st)) (lit 30)),
    (ge (parseFloat (SoilAware.temperature st)) (lit 25)
     && le (parseFloat (SoilAware.temperature st)) (lit 40)
     && gt (potassium (SoilAware.npkValues st)) (lit 40)),
    (ge (parseFloat (SoilAware.temperature st)) (lit 15)
     && le (parseFloat (SoilAware.temperature st)) (lit 25)).
  intros b1 b2 b3 b4.
  destruct b1, b2, b3, b4; cbn;
    (split; [intros c; unfold Edges.baseSuggestions; simpl; tauto|]);
    (split; [reflexivity|]);
    intros i j a b Hij Ha Hb;
    (eapply (StronglySorted_nth_error
               (fun a b => CropSuggestion.suitability a
                           > CropSuggestion.suitability b));
     [|exact Hij|exact Ha|exact Hb]);
    repeat constructor.
Qed.

Lemma unknown_soil_uses_base_scores_witness :
  SoilAware.passesValidation Edges.peatSoil = true
  /\ ~ In (SoilAware.soilType Edges.peatSoil) Edges.soilOptions
  /\ exists r,
       SoilAware.recommendations
         (fst (SoilAware.generateRecommendations Decimal.parseFloat
                 Edges.peatSoil)) = Some r
       /\ map (fun c => (CropSuggestion.name c, CropSuggestion.suitability c))
            (crops r)
          = [("Rice", 85); ("Wheat", 80); ("Cotton", 75); ("Potato", 70)].
Proof.
  assert (Hsoil : ~ In (SoilAware.soilType Edges.peatSoil) Edges.soilOptions).
  { simpl. intros [H|[H|[H|[H|[H|[]]]]]]; discriminate H. }
  split; [reflexivity|]. split; [exact Hsoil|].
  destruct (unknown_soil_uses_base_scores Decimal.parseFloat Edges.peatSoil
              eq_refl Hsoil) as [r [Hr _]].
  exists r. split; [exact Hr|].
  vm_compute in Hr. injection Hr as <-. reflexivity.
Defined.

(** X24. Which temperatures yield crops.  For every input that passes
    validation: from 15 to 35 degrees at least one crop is stored, whatever
    the soil and the NPK values; above 35 and up to 40 the only crop is
    Cotton, and only with potassium above 40; below 15, above 40, or when
    the temperature text does not parse (NaN), the crop list is empty
    although the input was accepted. *)
Theorem temperature_coverage (parseFloat : string -> number)
    (st : SoilAware.State) :
  SoilAware.passesValidation st = true ->
  exists r,
    SoilAware.recommendations
      (fst (SoilAware.generateRecommendations parseFloat st)) = Some r
    /\ (ge (parseFloat (SoilAware.temperature st)) (lit 15) = true ->
        le (parseFloat (SoilAware.temperature st)) (lit 35) = true ->
        crops r <> [])
    /\ (gt (parseFloat (SoilAware.temperature st)) (lit 35) = true ->
        le (parseFloat (SoilAware.temperature st)) (lit 40) = true ->
        map CropSuggestion.name (crops r)
        = if gt (potassium (SoilAware.npkValues st)) (lit 40)
          then ["Cotton"] else [])
    /\ (parseFloat (SoilAware.temperature st) = NaN
        \/ lt (parseFloat (SoilAware.temperature st)) (lit 15) = true
        \/ gt (parseFloat (SoilAware.temperature st)) (lit 40) = true ->
        crops r = []).
Proof.
  intros Hvalid.
  rewrite (generateRecommendations_valid parseFloat st Hvalid).
  eexists. split; [reflexivity|]. cbn [fst crops].
  set (temp := parseFloat (SoilAware.temperature st)).
  set (k := potassium (SoilAware.npkValues st)).
  split; [|split].
  - intros H15 H35 Hnil.
    assert (Hin : forall rule,
              In rule RuleTable.cropRules ->
              RuleTable.applicability rule temp (SoilAware.soilType st) k
              = true -> False).
    { intros rule Hrule Happ.
      pose proof (proj2 (stored_crops_In parseFloat st _)
                    (evaluate_In _ _ _ rule Hrule Happ)) as H.
      fold temp k in H. rewrite Hnil in H. exact H. }
    destruct (potato_or_rice temp H15 H35) as [H|H].
    + apply (Hin RuleTable.potato); [simpl; tauto|exact H].
    + apply (Hin RuleTable.rice); [simpl; tauto|exact H].
  - intros Hgt Hle. unfold SoilAware.cropSuggestions.
    rewrite (gt_le_false temp 35 35), (gt_le_false temp 35 30),
      (gt_le_false temp 35 25), (gt_ge_true temp 35 25), Hle
      by (lia || exact Hgt).
    rewrite !andb_false_r. cbn [andb].
    destruct (gt k (lit 40));
      [destruct ((SoilAware.soilType st =? "black")%string
                 || (SoilAware.soilType st =? "red")%string);
       [|destruct (SoilAware.soilType st =? "loamy")%string]|];
      reflexivity.
  - intros [Hnan|[Hlt|Hgt]]; unfold SoilAware.cropSuggestions.
    + rewrite Hnan.
      assert (Hge : forall b, ge NaN b = false) by (intros []; reflexivity).
      rewrite !Hge, ?andb_false_r. reflexivity.
    + rewrite (lt_ge_false temp 15 25), (lt_ge_false temp 15 20),
        (lt_ge_false temp 15 15) by (lia || exact Hlt).
      rewrite ?andb_false_r. reflexivity.
    + rewrite (gt_le_false temp 40 35), (gt_le_false temp 40 30),
        (gt_le_false temp 40 40), (gt_le_false temp 40 25)
        by (lia || exact Hgt).
      rewrite !andb_false_r. reflexivity.
Qed.

Lemma temperature_coverage_witness :
  SoilAware.passesValidation Edges.unreadable = true
  /\ Decimal.parseFloat (SoilAware.temperature Edges.unreadable) = NaN
  /\ Scenario.cropsOf Edges.unreadable = []
  /\ map CropSuggestion.name (Scenario.cropsOf Edges.hotRich) = ["Cotton"].
Proof.
  split; [reflexivity|]. split; [reflexivity|]. split.
  - destruct (temperature_coverage Decimal.parseFloat Edges.unreadable eq_refl)
      as [r [Hr [_ [_ H]]]].
    unfold Scenario.cropsOf. rewrite Hr. apply H. left. reflexivity.
  - reflexivity.
Defined.
